(** * 1pux-to-csv: the normalization pipeline of [main.py]

    A shallow embedding of the functions of [main.py] that turn the JSON
    tree of a 1PUX export into rows of the six-column CSV schema, and the
    properties of that pipeline.

    Python values are the values [json.load] builds.  A [str] is kept as
    the bytes of its UTF-8 encoding; the operations of the program that
    look at code points ([strip], [len], iteration) decode the bytes.
    Python exceptions are results of the [result] type. *)

From Stdlib Require Import String Ascii List ZArith Bool Lia DecimalString.
Import ListNotations.
Open Scope string_scope.

(** ** Text *)

Definition nl : string := String "010" EmptyString.

(** The separator line [build_notes] joins the blocks with. *)
Definition delimiter : string := nl ++ "---" ++ nl.

Fixpoint bytes (l : list nat) : string :=
  match l with
  | [] => EmptyString
  | n :: r => String (ascii_of_nat n) (bytes r)
  end.

(** A continuation byte of UTF-8, [10xxxxxx]. *)
Definition is_continuation (c : ascii) : bool :=
  (128 <=? nat_of_ascii c)%nat && (nat_of_ascii c <? 192)%nat.

Definition starts_with_continuation (s : string) : bool :=
  match s with
  | EmptyString => false
  | String c _ => is_continuation c
  end.

(** The code points of a [str], each as the string of its bytes: what
    iterating over a Python [str] yields. *)
Fixpoint chars (s : string) : list string :=
  match s with
  | EmptyString => []
  | String c r =>
      match chars r with
      | h :: t =>
          if starts_with_continuation h
          then String c h :: t
          else String c EmptyString :: h :: t
      | [] => [String c EmptyString]
      end
  end.

(** The characters for which [str.isspace] holds: U+0009..U+000D,
    U+001C..U+0020, U+0085, U+00A0, U+1680, U+2000..U+200A, U+2028,
    U+2029, U+202F, U+205F and U+3000. *)
Definition whitespace : list string :=
  map (fun n => bytes [n]) [9; 10; 11; 12; 13; 28; 29; 30; 31; 32]%nat
  ++ [bytes [194; 133]; bytes [194; 160]; bytes [225; 154; 128]]%nat
  ++ map (fun n => bytes [226; 128; n])
         [128; 129; 130; 131; 132; 133; 134; 135; 136; 137; 138;
          168; 169; 175]%nat
  ++ [bytes [226; 129; 159]; bytes [227; 128; 128]]%nat.

Definition is_space (ch : string) : bool :=
  existsb (String.eqb ch) whitespace.

Fixpoint lstrip_chars (l : list string) : list string :=
  match l with
  | [] => []
  | ch :: r => if is_space ch then lstrip_chars r else l
  end.

(** [s.strip()] *)
Definition strip (s : string) : string :=
  String.concat EmptyString
    (rev (lstrip_chars (rev (lstrip_chars (chars s))))).

(** [str(n)] for an [int]. *)
Definition str_of_int (n : Z) : string :=
  NilZero.string_of_int (Z.to_int n).

(** ** Values *)

(** A [float] is kept as what the program can observe of it: whether it
    differs from [0.0], and its [repr]. *)
#[warnings="-register-all"]
Inductive json : Type :=
| JNull
| JBool (b : bool)
| JInt (n : Z)
| JFloat (nonzero : bool) (text : string)
| JStr (s : string)
| JArr (l : list json)
| JObj (kvs : list (string * json)).

(** [d[k]] when [k in d].  The keys of a [dict] built by [json.load] are
    distinct. *)
Fixpoint lookup (k : string) (kvs : list (string * json)) : option json :=
  match kvs with
  | [] => None
  | (k', v) :: r => if String.eqb k k' then Some v else lookup k r
  end.

(** [d.get(k, default)] on the pairs of a [dict]. *)
Definition get_or (d : list (string * json)) (k : string) (default : json)
  : json :=
  match lookup k d with
  | Some v => v
  | None => default
  end.

Definition has_key (k : string) (kvs : list (string * json)) : bool :=
  match lookup k kvs with
  | Some _ => true
  | None => false
  end.

(** [bool(v)] *)
Definition truthy (v : json) : bool :=
  match v with
  | JNull => false
  | JBool b => b
  | JInt n => negb (n =? 0)%Z
  | JFloat nonzero _ => nonzero
  | JStr EmptyString => false
  | JStr _ => true
  | JArr [] => false
  | JArr _ => true
  | JObj [] => false
  | JObj _ => true
  end.

(** [v == s] for a string literal [s]. *)
Definition is_str (v : json) (s : string) : bool :=
  match v with
  | JStr s' => String.eqb s' s
  | _ => false
  end.

(** [v or ''] *)
Definition or_empty (v : json) : json :=
  if truthy v then v else JStr EmptyString.

(** [l.append(x)] *)
Definition append {A : Type} (l : list A) (x : A) : list A := (l ++ [x])%list.

(** ** Exceptions *)

Inductive exn : Type :=
| AttributeError
| TypeError
| KeyError
| IndexError.

Inductive result (A : Type) : Type :=
| Ok (a : A)
| Raise (e : exn).

Arguments Ok {A} a.
Arguments Raise {A} e.

Definition bind {A B : Type} (r : result A) (k : A -> result B) : result B :=
  match r with
  | Ok a => k a
  | Raise e => Raise e
  end.

Notation "'let*' x ':=' e 'in' k" := (bind e (fun x => k))
  (at level 10, x name, e at level 200, k at level 200).

(** ** The operations of Python the program uses *)

(** [x.get(k, default)]: only a [dict] has [get]. *)
Definition py_get (x : json) (k : string) (default : json) : result json :=
  match x with
  | JObj kvs => Ok (get_or kvs k default)
  | _ => Raise AttributeError
  end.

(** [for e in x]: the elements of a [list], the keys of a [dict], the
    characters of a [str]. *)
Definition py_iter (x : json) : result (list json) :=
  match x with
  | JArr l => Ok l
  | JObj kvs => Ok (map (fun kv => JStr (fst kv)) kvs)
  | JStr s => Ok (map JStr (chars s))
  | _ => Raise TypeError
  end.

(** [len(x)] *)
Definition py_len (x : json) : result nat :=
  match x with
  | JArr l => Ok (length l)
  | JObj kvs => Ok (length kvs)
  | JStr s => Ok (length (chars s))
  | _ => Raise TypeError
  end.

(** [x.startswith(p)] *)
Definition py_startswith (x : json) (p : string) : result bool :=
  match x with
  | JStr s => Ok (String.prefix p s)
  | _ => Raise AttributeError
  end.

(** [x.strip()] *)
Definition py_strip (x : json) : result string :=
  match x with
  | JStr s => Ok (strip s)
  | _ => Raise AttributeError
  end.

(** [x[0]]: a [dict] of [json.load] has no key [0]. *)
Definition py_first (x : json) : result json :=
  match x with
  | JArr (e :: _) => Ok e
  | JArr [] => Raise IndexError
  | JStr s =>
      match chars s with
      | ch :: _ => Ok (JStr ch)
      | [] => Raise IndexError
      end
  | JObj _ => Raise KeyError
  | _ => Raise TypeError
  end.

(** [x[1:]]: a [dict] cannot be sliced. *)
Definition py_rest (x : json) : result json :=
  match x with
  | JArr l => Ok (JArr (tl l))
  | JStr s => Ok (JStr (String.concat EmptyString (tl (chars s))))
  | _ => Raise TypeError
  end.

(** The elements of an iterable as strings, for [sep.join]: an element
    that is not a [str] is a [TypeError]. *)
Fixpoint all_str (l : list json) : result (list string) :=
  match l with
  | [] => Ok []
  | JStr s :: r => let* ss := all_str r in Ok (s :: ss)
  | _ :: _ => Raise TypeError
  end.

(** [sep.join(l)] for a list the program built. *)
Definition join_list (sep : string) (l : list json) : result string :=
  let* ss := all_str l in Ok (String.concat sep ss).

(** [sep.join(x)] for a value of the document. *)
Definition py_join (sep : string) (x : json) : result string :=
  let* l := py_iter x in join_list sep l.

(** An instance of [repr] on [str] for strings that hold no quote, no
    backslash and only printable characters. *)
Definition repr_plain (s : string) : string := "'" ++ s ++ "'".

(** ** Rows *)

(** The six columns of the output. *)
Record row : Type := Row {
  Title : json;
  URL : json;
  Username : json;
  Password : json;
  Notes : string;
  OTPAuth : json
}.

(** ** Sample documents *)

Module Examples.

Definition login_field (designation value : string) : json :=
  JObj [("designation", JStr designation); ("value", JStr value)].

(** Scenario 1 of the specification. *)
Definition example_login : json :=
  JObj [("overview", JObj [("title", JStr "Example");
                           ("url", JStr "https://example.com")]);
        ("details", JObj [("loginFields",
                           JArr [login_field "username" "alice";
                                 login_field "password" "p@ss"])])].

Definition example_row : row :=
  {| Title := JStr "Example"; URL := JStr "https://example.com";
     Username := JStr "alice"; Password := JStr "p@ss";
     Notes := EmptyString; OTPAuth := JStr EmptyString |}.

Definition archived_login : json :=
  match example_login with
  | JObj d => JObj (("state", JStr "archived") :: d)
  | other => other
  end.

(** Scenario 3 of the specification. *)
Definition main_street : list (string * json) :=
  [("street", JStr "1 Main St"); ("city", JStr "Springfield");
   ("state", JStr "IL"); ("zip", JStr "62704"); ("country", JStr "USA")].

Definition totp_field (id value : string) : json :=
  JObj [("id", JStr id); ("value", JStr value)].

(** A section whose first OTP field holds the empty string and whose
    second holds a seed. *)
Definition two_totp_fields : list json :=
  [JObj [("fields", JArr [totp_field "TOTP_1" EmptyString;
                          totp_field "TOTP_2" "JBSWY3DPEHPK3PXP"])]].

(** Notes of one space, and one tag. *)
Definition blank_notes : json := JObj [("notesPlain", JStr " ")].
Definition one_tag : json := JObj [("tags", JArr [JStr "a"])].

(** An item whose login fields are [null]. *)
Definition null_login_fields : json :=
  JObj [("details", JObj [("loginFields", JNull)])].

Definition one_vault (items : list json) : json :=
  JObj [("accounts", JArr [JObj [("vaults",
                                  JArr [JObj [("items", JArr items)]])]])].

Definition empty_then_text : list (string * json) :=
  [("value", JStr EmptyString); ("text", JStr "x")].

(** The names of an archive whose payload is not the first entry. *)
Definition archive_names : list string :=
  ["files/icon.png"; "files/export.data"; "export.data"].

(** Login fields with a value that is no object after the username. *)
Definition fields_with_number : list json :=
  [login_field "password" "p@ss"; login_field "username" "alice"; JInt 5].

Definition two_urls (first : json) : list (string * json) :=
  [("url", JStr "https://example.com");
   ("urls", JArr [first;
                  JObj [("url", JStr "https://b.com");
                        ("label", JStr "Backup")]])].

Definition history_of (entries : list json) : list (string * json) :=
  [("notesPlain", JStr "hi"); ("passwordHistory", JArr entries)].

(** An item with a descriptor without seed, a seed, and a plain field. *)
Definition item_with_totp : json :=
  JObj [("details",
         JObj [("sections",
                JArr [JObj [("title", JStr "Security");
                            ("fields",
                             JArr [JObj [("id", JStr "TOTP_0");
                                         ("value", JObj [("totp", JStr EmptyString)])];
                                   totp_field "TOTP_1" "JBSWY3DPEHPK3PXP";
                                   JObj [("id", JStr "pin");
                                         ("title", JStr "PIN");
                                         ("value", JStr "1234")]])]])])].

Definition archived_row : row := example_row.

(** An archived item whose login fields are [null]. *)
Definition archived_null_login_fields : json :=
  JObj [("state", JStr "archived");
        ("details", JObj [("loginFields", JNull)])].

(** Two sections: an OTP field, a titled field and a field of value 0
    under a title; a concealed field under no title. *)
Definition sample_sections : list json :=
  [JObj [("title", JStr "Security");
         ("fields", JArr [totp_field "TOTP_1" "JBSWY3DPEHPK3PXP";
                          JObj [("id", JStr "pin"); ("title", JStr "PIN");
                                ("value", JStr "1234")];
                          JObj [("id", JStr "n"); ("value", JInt 0)]])];
   JObj [("fields", JArr [JObj [("title", JStr "Member");
                                ("value", JObj [("concealed", JStr "42")])]])]].

(** Details and an overview with something for each block of the
    notes. *)
Definition full_details : list (string * json) :=
  [("notesPlain", JStr " hi ");
   ("loginFields",
    JArr [login_field "username" "alice";
          JObj [("name", JStr "PIN"); ("value", JStr "1234")]]);
   ("sections", JArr sample_sections);
   ("passwordHistory", JArr [JStr "old1"; JStr "old2"])].

Definition full_overview : list (string * json) :=
  [("tags", JArr [JStr "a"; JStr "b"]);
   ("urls", JArr [JObj [("url", JStr "https://a.com")];
                  JObj [("url", JStr "https://b.com");
                        ("label", JStr "Backup")]])].

Definition full_notes : string :=
  "hi" ++ delimiter
  ++ "標籤: a, b" ++ delimiter
  ++ "其他欄位:" ++ nl ++ "  - PIN: 1234" ++ delimiter
  ++ "額外資訊:" ++ nl ++ "  - Security - PIN: 1234" ++ nl
  ++ "  - Member: 42" ++ delimiter
  ++ "其他網址:" ++ nl ++ "  - Backup: https://b.com" ++ delimiter
  ++ "密碼歷史記錄: 2 筆".

End Examples.

Import Examples.

(** ** The program *)

Section Program.

(** [repr] on a [str]: the quoting and escaping of Python, which the
    program reaches only when it renders a [list] or a [dict] as text. *)
Variable repr_str : string -> string.

(** [repr(v)] *)
Fixpoint py_repr (v : json) : string :=
  match v with
  | JNull => "None"
  | JBool true => "True"
  | JBool false => "False"
  | JInt n => str_of_int n
  | JFloat _ text => text
  | JStr s => repr_str s
  | JArr l => "[" ++ String.concat ", " (map py_repr l) ++ "]"
  | JObj kvs =>
      "{" ++ String.concat ", "
               (map (fun kv => repr_str (fst kv) ++ ": " ++ py_repr (snd kv))
                    kvs)
          ++ "}"
  end.

(** [str(v)], and [v] inside an f-string. *)
Definition py_str (v : json) : string :=
  match v with
  | JStr s => s
  | _ => py_repr v
  end.

(** [bool(s)] for a [str]. *)
Definition nonempty_name (s : string) : bool :=
  match s with
  | EmptyString => false
  | String _ _ => true
  end.

(** *** extract_export_data *)

(** [s.endswith(suffix)] *)
Definition ends_with (s suffix : string) : bool :=
  (String.length suffix <=? String.length s)%nat
  && String.eqb
       (substring (String.length s - String.length suffix)
          (String.length suffix) s)
       suffix.

(** The loop over [zip_file.namelist()]: the name [export_data_path] holds
    when the loop ends, [None] when it was never assigned. *)
Fixpoint export_data_name (names : list string) : option string :=
  match names with
  | [] => None
  | name :: rest =>
      if ends_with name "export.data" || String.eqb name "export.data"
      then Some name
      else export_data_name rest
  end.

(** The name of the entry [extract_export_data] opens; [None] when it
    raises [ValueError] instead, [export_data_path] being [None] or
    empty. *)
Definition export_data_path (names : list string) : option string :=
  match export_data_name names with
  | Some name => if nonempty_name name then Some name else None
  | None => None
  end.

(** *** extract_username, extract_password *)

(** The loop of [extract_username] and of [extract_password], over the
    elements of [login_fields]. *)
Fixpoint first_designated (designation : string) (fields : list json)
  : result json :=
  match fields with
  | [] => Ok JNull
  | field :: rest =>
      let* d := py_get field "designation" JNull in
      if is_str d designation
      then py_get field "value" (JStr EmptyString)
      else first_designated designation rest
  end.

Definition extract_username (login_fields : json) : result json :=
  let* fields := py_iter login_fields in
  first_designated "username" fields.

Definition extract_password (login_fields : json) : result json :=
  let* fields := py_iter login_fields in
  first_designated "password" fields.

(** *** extract_otp_auth *)

(** The inner loop: [Some v] when the function returns [v] from inside
    it, [None] when the loop ends. *)
Fixpoint otp_of_fields (fields : list json) : result (option json) :=
  match fields with
  | [] => Ok None
  | field :: rest =>
      let* field_id := py_get field "id" (JStr EmptyString) in
      let* totp_id := py_startswith field_id "TOTP_" in
      if totp_id then
        let* value := py_get field "value" (JObj []) in
        match value with
        | JObj _ =>
            let* totp := py_get value "totp" (JStr EmptyString) in
            if truthy totp then Ok (Some totp) else otp_of_fields rest
        | JStr _ => Ok (Some value)
        | _ => otp_of_fields rest
        end
      else otp_of_fields rest
  end.

Fixpoint otp_of_sections (sections : list json) : result json :=
  match sections with
  | [] => Ok JNull
  | section :: rest =>
      let* fields := py_get section "fields" (JArr []) in
      let* fs := py_iter fields in
      let* found := otp_of_fields fs in
      match found with
      | Some v => Ok v
      | None => otp_of_sections rest
      end
  end.

Definition extract_otp_auth (sections : json) : result json :=
  let* ss := py_iter sections in
  otp_of_sections ss.

(** *** extract_url *)

Definition extract_url (overview : json) : result json :=
  let* url := py_get overview "url" JNull in
  if truthy url then Ok url
  else
    let* urls := py_get overview "urls" (JArr []) in
    if truthy urls then
      let* n := py_len urls in
      if (0 <? n)%nat then
        let* first := py_first urls in
        py_get first "url" (JStr EmptyString)
      else Ok JNull
    else Ok JNull.

(** *** format_field_value *)

(** The branch of an [address] that is a [dict]. *)
Definition format_address (addr : list (string * json)) : result json :=
  let street := get_or addr "street" JNull in
  let parts := if truthy street then [street] else [] in
  let city := get_or addr "city" (JStr EmptyString) in
  let state := get_or addr "state" (JStr EmptyString) in
  let zip_code := get_or addr "zip" (JStr EmptyString) in
  let country := get_or addr "country" (JStr EmptyString) in
  let city_parts := filter truthy [city; state; zip_code] in
  let* parts :=
    match city_parts with
    | [] => Ok parts
    | _ :: _ =>
        let* joined := join_list ", " city_parts in
        Ok (append parts (JStr joined))
    end in
  let parts := if truthy country then append parts country else parts in
  match parts with
  | [] => Ok JNull
  | _ :: _ => let* joined := join_list ", " parts in Ok (JStr joined)
  end.

(** The loop over the keys [value], [text], [name], [label]. *)
Fixpoint first_incidental (keys : list string)
  (field_value : list (string * json)) : json :=
  match keys with
  | [] => JNull
  | key :: rest =>
      match lookup key field_value with
      | Some val =>
          if truthy val then JStr (py_str val)
          else first_incidental rest field_value
      | None => first_incidental rest field_value
      end
  end.

Definition incidental_keys : list string := ["value"; "text"; "name"; "label"].

Definition format_field_value (field_value : json) : result json :=
  if negb (truthy field_value) then Ok JNull
  else
    match field_value with
    | JStr _ => Ok field_value
    | JObj d =>
        match lookup "concealed" d with
        | Some concealed => Ok concealed
        | None =>
        match lookup "string" d with
        | Some str => Ok str
        | None =>
        match lookup "ssoLogin" d with
        | Some (JObj sso_login) =>
            let provider := get_or sso_login "provider" (JStr EmptyString) in
            Ok (if truthy provider then provider else JNull)
        | Some _ => Ok JNull
        | None =>
        match lookup "menu" d with
        | Some menu_value =>
            Ok (if truthy menu_value then menu_value else JNull)
        | None =>
        match lookup "address" d with
        | Some (JObj addr) => format_address addr
        | _ => Ok (first_incidental incidental_keys d)
        end end end end end
    | _ => Ok (JStr (py_str field_value))
    end.

(** *** build_notes *)

(** One bullet line per entry, as in ["\n".join(f"  - {f}" for f in l)]. *)
Definition bullets (l : list json) : string :=
  String.concat nl (map (fun f => "  - " ++ py_str f) l).

(** The loop over [login_fields], threading [other_fields]. *)
Fixpoint other_login_fields (fields : list json) (other_fields : list json)
  : result (list json) :=
  match fields with
  | [] => Ok other_fields
  | field :: rest =>
      let* designation := py_get field "designation" (JStr EmptyString) in
      if negb (is_str designation "username" || is_str designation "password")
      then
        let* field_name := py_get field "name" (JStr EmptyString) in
        let* field_value := py_get field "value" (JStr EmptyString) in
        if truthy field_value then
          if truthy field_name
          then other_login_fields rest
                 (append other_fields
                    (JStr (py_str field_name ++ ": " ++ py_str field_value)))
          else other_login_fields rest (append other_fields field_value)
        else other_login_fields rest other_fields
      else other_login_fields rest other_fields
  end.

(** The loop over the fields of one section, threading [section_fields]. *)
Fixpoint fields_of_section (section_title : json) (fields : list json)
  (section_fields : list json) : result (list json) :=
  match fields with
  | [] => Ok section_fields
  | field :: rest =>
      let* field_id := py_get field "id" (JStr EmptyString) in
      let* totp_id := py_startswith field_id "TOTP_" in
      if totp_id then fields_of_section section_title rest section_fields
      else
        let* field_title := py_get field "title" (JStr EmptyString) in
        let* field_value := py_get field "value" (JStr EmptyString) in
        let* formatted_value := format_field_value field_value in
        if truthy formatted_value then
          if truthy section_title && truthy field_title
          then fields_of_section section_title rest
                 (append section_fields
                    (JStr (py_str section_title ++ " - " ++ py_str field_title
                             ++ ": " ++ py_str formatted_value)))
          else if truthy field_title
          then fields_of_section section_title rest
                 (append section_fields
                    (JStr (py_str field_title ++ ": "
                             ++ py_str formatted_value)))
          else fields_of_section section_title rest
                 (append section_fields formatted_value)
        else fields_of_section section_title rest section_fields
  end.

(** The loop over [sections]. *)
Fixpoint fields_of_sections (sections : list json) (section_fields : list json)
  : result (list json) :=
  match sections with
  | [] => Ok section_fields
  | section :: rest =>
      let* section_title := py_get section "title" (JStr EmptyString) in
      let* fields := py_get section "fields" (JArr []) in
      let* fs := py_iter fields in
      let* section_fields :=
        fields_of_section section_title fs section_fields in
      fields_of_sections rest section_fields
  end.

(** The loop over [urls[1:]], threading [other_urls]. *)
Fixpoint other_url_lines (urls : list json) (other_urls : list json)
  : result (list json) :=
  match urls with
  | [] => Ok other_urls
  | url_obj :: rest =>
      let* url_str := py_get url_obj "url" (JStr EmptyString) in
      let* label := py_get url_obj "label" (JStr EmptyString) in
      if truthy url_str then
        if truthy label
        then other_url_lines rest
               (append other_urls
                  (JStr (py_str label ++ ": " ++ py_str url_str)))
        else other_url_lines rest (append other_urls url_str)
      else other_url_lines rest other_urls
  end.

Definition build_notes (details overview : json) : result string :=
  let notes_parts : list string := [] in
  (* 1. notesPlain *)
  let* notes_plain := py_get details "notesPlain" (JStr EmptyString) in
  let* notes_parts :=
    if truthy notes_plain
    then let* stripped := py_strip notes_plain in
         Ok (append notes_parts stripped)
    else Ok notes_parts in
  (* 2. tags *)
  let* tags := py_get overview "tags" (JArr []) in
  let* notes_parts :=
    if truthy tags
    then let* tags_str := py_join ", " tags in
         Ok (append notes_parts ("標籤: " ++ tags_str))
    else Ok notes_parts in
  (* 3. the login fields that are neither username nor password *)
  let* login_fields := py_get details "loginFields" (JArr []) in
  let* fields := py_iter login_fields in
  let* other_fields := other_login_fields fields [] in
  let notes_parts :=
    match other_fields with
    | [] => notes_parts
    | _ :: _ => append notes_parts ("其他欄位:" ++ nl ++ bullets other_fields)
    end in
  (* 4. the fields of the sections, OTP apart *)
  let* sections := py_get details "sections" (JArr []) in
  let* ss := py_iter sections in
  let* section_fields := fields_of_sections ss [] in
  let notes_parts :=
    match section_fields with
    | [] => notes_parts
    | _ :: _ => append notes_parts ("額外資訊:" ++ nl ++ bullets section_fields)
    end in
  (* 5. the other URLs *)
  let* urls := py_get overview "urls" (JArr []) in
  let* n := py_len urls in
  let* notes_parts :=
    if (1 <? n)%nat then
      let* rest := py_rest urls in
      let* us := py_iter rest in
      let* other_urls := other_url_lines us [] in
      match other_urls with
      | [] => Ok notes_parts
      | _ :: _ =>
          Ok (append notes_parts ("其他網址:" ++ nl ++ bullets other_urls))
      end
    else Ok notes_parts in
  (* 6. password history *)
  let* password_history := py_get details "passwordHistory" (JArr []) in
  let* notes_parts :=
    if truthy password_history
    then let* count := py_len password_history in
         Ok (append notes_parts
               ("密碼歷史記錄: " ++ str_of_int (Z.of_nat count) ++ " 筆"))
    else Ok notes_parts in
  Ok (String.concat delimiter notes_parts).

(** *** convert_item_to_csv_row *)

Definition convert_item_to_csv_row (item : json) : result row :=
  let* overview := py_get item "overview" (JObj []) in
  let* details := py_get item "details" (JObj []) in
  let* title := py_get overview "title" (JStr EmptyString) in
  let* url := extract_url overview in
  let url := or_empty url in
  let* login_fields := py_get details "loginFields" (JArr []) in
  let* username := extract_username login_fields in
  let username := or_empty username in
  let* password := extract_password login_fields in
  let password := or_empty password in
  let* sections := py_get details "sections" (JArr []) in
  let* otp_auth := extract_otp_auth sections in
  let otp_auth := or_empty otp_auth in
  let* notes := build_notes details overview in
  Ok {| Title := title; URL := url; Username := username;
        Password := password; Notes := notes; OTPAuth := otp_auth |}.

(** *** convert_1pux_to_csv *)

(** The body of the loop over [items]: the rows collected so far, with
    the row of [item] appended unless the item is left out. *)
Definition add_item (include_archived : bool) (item : json)
  (csv_rows : list row) : result (list row) :=
  let* state := py_get item "state" (JStr "active") in
  if negb include_archived && is_str state "archived" then Ok csv_rows
  else
    let* csv_row := convert_item_to_csv_row item in
    Ok (append csv_rows csv_row).

Fixpoint add_items (include_archived : bool) (items : list json)
  (csv_rows : list row) : result (list row) :=
  match items with
  | [] => Ok csv_rows
  | item :: rest =>
      let* csv_rows := add_item include_archived item csv_rows in
      add_items include_archived rest csv_rows
  end.

Fixpoint add_vaults (include_archived : bool) (vaults : list json)
  (csv_rows : list row) : result (list row) :=
  match vaults with
  | [] => Ok csv_rows
  | vault :: rest =>
      let* items := py_get vault "items" (JArr []) in
      let* its := py_iter items in
      let* csv_rows := add_items include_archived its csv_rows in
      add_vaults include_archived rest csv_rows
  end.

Fixpoint add_accounts (include_archived : bool) (accounts : list json)
  (csv_rows : list row) : result (list row) :=
  match accounts with
  | [] => Ok csv_rows
  | account :: rest =>
      let* vaults := py_get account "vaults" (JArr []) in
      let* vs := py_iter vaults in
      let* csv_rows := add_vaults include_archived vs csv_rows in
      add_accounts include_archived rest csv_rows
  end.

(** The rows [convert_1pux_to_csv] hands to the CSV writer, from the
    document [data] that [extract_export_data] returned. *)
Definition convert_1pux_to_csv (data : json) (include_archived : bool)
  : result (list row) :=
  let* accounts := py_get data "accounts" (JArr []) in
  let* accs := py_iter accounts in
  add_accounts include_archived accs [].

(** ** The vocabulary of the properties *)

Definition is_obj (v : json) : bool :=
  match v with
  | JObj _ => true
  | _ => false
  end.

Definition is_arr (v : json) : bool :=
  match v with
  | JArr _ => true
  | _ => false
  end.

Definition is_string (v : json) : bool :=
  match v with
  | JStr _ => true
  | _ => false
  end.

(** A [list] whose elements all satisfy [p]. *)
Definition list_of (p : json -> bool) (v : json) : bool :=
  match v with
  | JArr l => forallb p l
  | _ => false
  end.

(** A [dict] whose pairs satisfy [p]. *)
Definition obj_of (p : list (string * json) -> bool) (v : json) : bool :=
  match v with
  | JObj d => p d
  | _ => false
  end.

(** The key [k] is missing from [d], or its value satisfies [p]. *)
Definition opt_key (k : string) (p : json -> bool) (d : list (string * json))
  : bool :=
  match lookup k d with
  | Some v => p v
  | None => true
  end.

(** *** The shapes of the data model *)

Definition address_keys : list string :=
  ["street"; "city"; "state"; "zip"; "country"].

(** A postal address: its sub-fields, where present, are strings. *)
Definition address_ok (addr : list (string * json)) : bool :=
  forallb (fun k => opt_key k is_string addr) address_keys.

Definition recognized (d : list (string * json)) : bool :=
  has_key "concealed" d || has_key "string" d || has_key "ssoLogin" d
  || has_key "menu" d.

(** A field value of any shape, but for a postal address that the
    formatter reaches, which has the shape of [address_ok]. *)
Definition field_value_ok (v : json) : bool :=
  match v with
  | JObj d =>
      recognized d
      || opt_key "address"
           (fun a => match a with
                     | JObj addr => address_ok addr
                     | _ => true
                     end) d
  | _ => true
  end.

(** A field value of the data model: a plain string, a concealed or
    opaque string, an SSO descriptor, a menu selection, a postal address,
    each with strings for payload; or a value with none of these keys,
    or a value that is not a [dict]. *)
Definition field_value_typed (v : json) : bool :=
  match v with
  | JObj d =>
      match lookup "concealed" d with
      | Some c => is_string c
      | None =>
      match lookup "string" d with
      | Some str => is_string str
      | None =>
      match lookup "ssoLogin" d with
      | Some (JObj sso) => opt_key "provider" is_string sso
      | Some _ => true
      | None =>
      match lookup "menu" d with
      | Some m => is_string m
      | None =>
      match lookup "address" d with
      | Some (JObj addr) => address_ok addr
      | _ => true
      end end end end end
  | _ => true
  end.

Definition section_field_ok : json -> bool :=
  obj_of (fun d => opt_key "id" is_string d
                   && opt_key "value" field_value_ok d).

Definition section_ok : json -> bool :=
  obj_of (opt_key "fields" (list_of section_field_ok)).

Definition overview_ok : json -> bool :=
  obj_of (fun d => opt_key "urls" (list_of is_obj) d
                   && opt_key "tags" (list_of is_string) d).

Definition details_ok : json -> bool :=
  obj_of (fun d => opt_key "notesPlain" is_string d
                   && opt_key "loginFields" (list_of is_obj) d
                   && opt_key "sections" (list_of section_ok) d
                   && opt_key "passwordHistory" is_arr d).

(** An item of the data model: [overview] and [details] are objects, the
    lists they hold are lists of objects (of strings, for the tags), the
    notes and the ids of section fields are strings.  Any key may be
    missing, and [title], [url], [state], the designation, name and value
    of a login field, the url and label of a URL entry are of any type. *)
Definition item_ok : json -> bool :=
  obj_of (fun d => opt_key "overview" overview_ok d
                   && opt_key "details" details_ok d).

(** *** OTP fields *)

(** A section field whose id starts with [TOTP_]. *)
Definition is_totp_field (field : json) : bool :=
  match field with
  | JObj d =>
      match get_or d "id" (JStr EmptyString) with
      | JStr id => String.prefix "TOTP_" id
      | _ => false
      end
  | _ => false
  end.

(** [d[k] = v] *)
Fixpoint set_key (k : string) (v : json) (d : list (string * json))
  : list (string * json) :=
  match d with
  | [] => [(k, v)]
  | (k', v') :: r =>
      if String.eqb k k' then (k, v) :: r else (k', v') :: set_key k v r
  end.

(** A section without its OTP fields. *)
Definition drop_totp_fields (section : json) : json :=
  match section with
  | JObj d =>
      match lookup "fields" d with
      | Some (JArr fields) =>
          JObj (set_key "fields"
                  (JArr (filter (fun f => negb (is_totp_field f)) fields)) d)
      | _ => section
      end
  | _ => section
  end.

(** The details of an item without the OTP fields of its sections. *)
Definition drop_totp (details : json) : json :=
  match details with
  | JObj d =>
      match lookup "sections" d with
      | Some (JArr sections) =>
          JObj (set_key "sections" (JArr (map drop_totp_fields sections)) d)
      | _ => details
      end
  | _ => details
  end.

(** An item without the OTP fields of its sections. *)
Definition drop_totp_item (item : json) : json :=
  match item with
  | JObj i =>
      match lookup "details" i with
      | Some details => JObj (set_key "details" (drop_totp details) i)
      | None => item
      end
  | _ => item
  end.

(** The candidate a field offers to the OTP scan, as the specification
    words it: the [totp] of a descriptor, a plain string itself. *)
Definition otp_candidate (field : json) : option json :=
  match field with
  | JObj d =>
      if is_totp_field field then
        match get_or d "value" (JObj []) with
        | JObj descriptor => Some (get_or descriptor "totp" (JStr EmptyString))
        | JStr seed => Some (JStr seed)
        | _ => None
        end
      else None
  | _ => None
  end.

Definition fields_in (section : json) : list json :=
  match section with
  | JObj d =>
      match get_or d "fields" (JArr []) with
      | JArr fields => fields
      | _ => []
      end
  | _ => []
  end.

Fixpoint first_truthy (candidates : list (option json)) : json :=
  match candidates with
  | [] => JNull
  | Some v :: rest => if truthy v then v else first_truthy rest
  | None :: rest => first_truthy rest
  end.

(** The first non-empty candidate of the whole scan, as the
    specification words [extract_otp]. *)
Definition first_nonempty_otp (sections : list json) : json :=
  first_truthy (map otp_candidate (flat_map fields_in sections)).

(** An OTP field whose value is the empty string. *)
Definition plain_empty_otp (field : json) : bool :=
  match field with
  | JObj d =>
      is_totp_field field
      && is_str (get_or d "value" (JObj [])) EmptyString
  | _ => false
  end.

(** *** Postal addresses *)

Definition nonempty (s : string) : bool :=
  match s with
  | EmptyString => false
  | String _ _ => true
  end.

(** A sub-field of an address as text, empty when it is missing. *)
Definition text_of (addr : list (string * json)) (k : string) : string :=
  match lookup k addr with
  | Some (JStr s) => s
  | _ => EmptyString
  end.

(** The composition of an address as the specification words it: the
    street, then city, state and postal code joined, then the country,
    each a segment when it is not empty. *)
Definition address_segments (addr : list (string * json)) : list string :=
  filter nonempty
    [text_of addr "street";
     String.concat ", "
       (filter nonempty
          [text_of addr "city"; text_of addr "state"; text_of addr "zip"]);
     text_of addr "country"].

Definition compose_address (addr : list (string * json)) : json :=
  match address_segments addr with
  | [] => JNull
  | segments => JStr (String.concat ", " segments)
  end.

(** The final notes as the specification words them: the blocks that
    are not empty, joined by the delimiter. *)
Definition join_blocks (blocks : list string) : string :=
  String.concat delimiter (filter nonempty blocks).

(** The free-text notes of [details] are not empty and hold only
    whitespace. *)
Definition blank_notes_plain (details : json) : bool :=
  match details with
  | JObj d =>
      match get_or d "notesPlain" (JStr EmptyString) with
      | JStr s => nonempty s && negb (nonempty (strip s))
      | _ => false
      end
  | _ => false
  end.

(** *** Traversal *)

Fixpoint items_of_vaults (vaults : list json) : result (list json) :=
  match vaults with
  | [] => Ok []
  | vault :: rest =>
      let* items := py_get vault "items" (JArr []) in
      let* its := py_iter items in
      let* more := items_of_vaults rest in
      Ok (its ++ more)%list
  end.

Fixpoint items_of_accounts (accounts : list json) : result (list json) :=
  match accounts with
  | [] => Ok []
  | account :: rest =>
      let* vaults := py_get account "vaults" (JArr []) in
      let* vs := py_iter vaults in
      let* its := items_of_vaults vs in
      let* more := items_of_accounts rest in
      Ok (its ++ more)%list
  end.

(** The items of a document in source order: accounts, then their
    vaults, then their items. *)
Definition items_of (data : json) : result (list json) :=
  let* accounts := py_get data "accounts" (JArr []) in
  let* accs := py_iter accounts in
  items_of_accounts accs.

Definition state_of (item : json) : json :=
  match item with
  | JObj d => get_or d "state" (JStr "active")
  | _ => JNull
  end.

(** The items that get a row. *)
Definition included (include_archived : bool) (item : json) : bool :=
  include_archived || negb (is_str (state_of item) "archived").

(** A string or absent: what the formatter is to return. *)
Definition is_text (v : json) : bool :=
  match v with
  | JNull | JStr _ => true
  | _ => false
  end.

(** *** Unrecognized shapes *)

(** A [dict] with none of the keys the formatter recognizes: no
    [concealed], [string], [ssoLogin] or [menu], and no [address] that is
    a [dict]. *)
Definition unrecognized (d : list (string * json)) : bool :=
  negb (recognized d)
  && match lookup "address" d with
     | Some (JObj _) => false
     | _ => true
     end.

(** The value of the first key of [keys] that [d] holds. *)
Fixpoint first_present (keys : list string) (d : list (string * json))
  : option json :=
  match keys with
  | [] => None
  | key :: rest =>
      match lookup key d with
      | Some val => Some val
      | None => first_present rest d
      end
  end.

(** The reading under which the first present key decides the result,
    empty or not. *)
Definition first_present_wins (d : list (string * json)) : json :=
  match first_present incidental_keys d with
  | Some val => JStr (py_str val)
  | None => JNull
  end.

(** The key [k] is missing from [d] or holds an empty value. *)
Definition empty_at (d : list (string * json)) (k : string) : Prop :=
  truthy (get_or d k JNull) = false.

(** The rows are the conversions of the items, one row for each item
    and in the same order. *)
Definition converted (items : list json) (csv_rows : list row) : Prop :=
  Forall2 (fun item csv_row => convert_item_to_csv_row item = Ok csv_row)
    items csv_rows.

(** The rows are those of the included items among [items], each item
    being an object. *)
Definition rows_of (include_archived : bool) (items : list json)
  (csv_rows : list row) : Prop :=
  Forall (fun item => is_obj item = true) items
  /\ converted (filter (included include_archived) items) csv_rows.

(** The computation raises nothing. *)
Definition returns {A : Type} (r : result A) : Prop := exists a, r = Ok a.

(** *** Login fields *)

(** A login field that is an object with the designation [designation]. *)
Definition designated (designation : string) (field : json) : bool :=
  match field with
  | JObj d => is_str (get_or d "designation" JNull) designation
  | _ => false
  end.

(** A login field that is an object of another designation. *)
Definition not_designated (designation : string) (field : json) : bool :=
  is_obj field && negb (designated designation field).

(** A login field designated [username] or [password]. *)
Definition is_credential_field (field : json) : bool :=
  designated "username" field || designated "password" field.

(** The details of an item without the login fields designated
    [username] or [password]. *)
Definition drop_credentials (details : json) : json :=
  match details with
  | JObj d =>
      match lookup "loginFields" d with
      | Some (JArr fields) =>
          JObj (set_key "loginFields"
                  (JArr (filter (fun f => negb (is_credential_field f)) fields))
                  d)
      | _ => details
      end
  | _ => details
  end.

(** *** Columns *)

(** A column that holds a value or the empty string, never [None]. *)
Definition defaulted (v : json) : Prop :=
  truthy v = true \/ v = JStr EmptyString.

(** The rows of [csv_rows], each the row of the item at its place in
    [items], whose item is included when archived items are not. *)
Definition kept_rows (items : list json) (csv_rows : list row) : list row :=
  map snd (filter (fun p => included false (fst p)) (combine items csv_rows)).

(** *** The blocks of the notes *)

(** The six blocks of [build_notes], each the list of the parts the code
    appends for it: none or one. *)
Definition notes_block (details : json) : result (list string) :=
  let* notes_plain := py_get details "notesPlain" (JStr EmptyString) in
  if truthy notes_plain
  then let* stripped := py_strip notes_plain in Ok [stripped]
  else Ok [].

Definition tags_block (overview : json) : result (list string) :=
  let* tags := py_get overview "tags" (JArr []) in
  if truthy tags
  then let* tags_str := py_join ", " tags in Ok ["標籤: " ++ tags_str]
  else Ok [].

Definition login_block (details : json) : result (list string) :=
  let* login_fields := py_get details "loginFields" (JArr []) in
  let* fields := py_iter login_fields in
  let* other_fields := other_login_fields fields [] in
  Ok match other_fields with
     | [] => []
     | _ :: _ => ["其他欄位:" ++ nl ++ bullets other_fields]
     end.

Definition sections_block (details : json) : result (list string) :=
  let* sections := py_get details "sections" (JArr []) in
  let* ss := py_iter sections in
  let* section_fields := fields_of_sections ss [] in
  Ok match section_fields with
     | [] => []
     | _ :: _ => ["額外資訊:" ++ nl ++ bullets section_fields]
     end.

Definition urls_block (overview : json) : result (list string) :=
  let* urls := py_get overview "urls" (JArr []) in
  let* n := py_len urls in
  if (1 <? n)%nat then
    let* rest := py_rest urls in
    let* us := py_iter rest in
    let* other_urls := other_url_lines us [] in
    Ok match other_urls with
       | [] => []
       | _ :: _ => ["其他網址:" ++ nl ++ bullets other_urls]
       end
  else Ok [].

Definition history_block (details : json) : result (list string) :=
  let* password_history := py_get details "passwordHistory" (JArr []) in
  if truthy password_history
  then let* count := py_len password_history in
       Ok ["密碼歷史記錄: " ++ str_of_int (Z.of_nat count) ++ " 筆"]
  else Ok [].

(** *** The lines of the section fields *)

(** The entry of a rendered field: with the titles of its section and
    of the field, with the title of the field, or bare. *)
Definition section_entry (section_title field_title formatted : json)
  : json :=
  if truthy section_title && truthy field_title
  then JStr (py_str section_title ++ " - " ++ py_str field_title ++ ": "
               ++ py_str formatted)
  else if truthy field_title
  then JStr (py_str field_title ++ ": " ++ py_str formatted)
  else formatted.

(** The entries a field adds: none for an OTP field and for a value that
    formats to absent or to an empty value, one otherwise. *)
Definition section_line (section_title field : json) : list json :=
  match field with
  | JObj d =>
      if is_totp_field field then []
      else
        match format_field_value (get_or d "value" (JStr EmptyString)) with
        | Ok formatted =>
            if truthy formatted
            then [section_entry section_title
                    (get_or d "title" (JStr EmptyString)) formatted]
            else []
        | Raise _ => []
        end
  | _ => []
  end.

Definition title_of (section : json) : json :=
  match section with
  | JObj d => get_or d "title" (JStr EmptyString)
  | _ => JStr EmptyString
  end.

(** The row of an item without content. *)
Definition empty_row : row :=
  {| Title := JStr EmptyString; URL := JStr EmptyString;
     Username := JStr EmptyString; Password := JStr EmptyString;
     Notes := EmptyString; OTPAuth := JStr EmptyString |}.

(** *** The notes in closed form *)

(** The list [d[k]] holds, empty when it is missing. *)
Definition list_at (d : list (string * json)) (k : string) : list json :=
  match get_or d k (JArr []) with
  | JArr l => l
  | _ => []
  end.

(** A value under its label, or bare without one. *)
Definition labelled (label value : json) : json :=
  if truthy label
  then JStr (py_str label ++ ": " ++ py_str value)
  else value.

(** The bullet of a login field: none for a username, a password and a
    field without value. *)
Definition login_line (field : json) : list json :=
  match field with
  | JObj d =>
      if is_credential_field field then []
      else if truthy (get_or d "value" (JStr EmptyString))
      then [labelled (get_or d "name" (JStr EmptyString))
              (get_or d "value" (JStr EmptyString))]
      else []
  | _ => []
  end.

(** The bullet of a URL entry: none for an entry without URL. *)
Definition url_line (url_obj : json) : list json :=
  match url_obj with
  | JObj d =>
      if truthy (get_or d "url" (JStr EmptyString))
      then [labelled (get_or d "label" (JStr EmptyString))
              (get_or d "url" (JStr EmptyString))]
      else []
  | _ => []
  end.

(** A header over its bullets; empty without bullets. *)
Definition titled (header : string) (entries : list json) : string :=
  match entries with
  | [] => EmptyString
  | _ :: _ => header ++ nl ++ bullets entries
  end.

Definition notes_text (d : list (string * json)) : string :=
  strip (text_of d "notesPlain").

Definition tags_text (o : list (string * json)) : string :=
  match list_at o "tags" with
  | [] => EmptyString
  | tags => "標籤: " ++ String.concat ", " (map py_str tags)
  end.

Definition login_text (d : list (string * json)) : string :=
  titled "其他欄位:" (flat_map login_line (list_at d "loginFields")).

Definition sections_text (d : list (string * json)) : string :=
  titled "額外資訊:"
    (flat_map (fun section =>
                 flat_map (section_line (title_of section)) (fields_in section))
       (list_at d "sections")).

Definition urls_text (o : list (string * json)) : string :=
  titled "其他網址:" (flat_map url_line (tl (list_at o "urls"))).

Definition history_text (d : list (string * json)) : string :=
  match list_at d "passwordHistory" with
  | [] => EmptyString
  | history =>
      "密碼歷史記錄: " ++ str_of_int (Z.of_nat (length history)) ++ " 筆"
  end.

(** The six blocks of the notes as the specification words them, each
    empty when it has nothing to show. *)
Definition blocks_of (d o : list (string * json)) : list string :=
  [notes_text d; tags_text o; login_text d; sections_text d; urls_text o;
   history_text d].

(** ** Properties *)

(** *** Dictionaries and results *)

Lemma bind_ok {A B : Type} (r : result A) (k : A -> result B) (b : B) :
  bind r k = Ok b <-> exists a, r = Ok a /\ k a = Ok b.
Proof.
  destruct r as [a | e]; simpl; split.
  - intros H. exists a. auto.
  - intros [a' [Ha Hk]]. injection Ha as ->. exact Hk.
  - discriminate.
  - intros [a' [Ha _]]. discriminate.
Qed.

Lemma opt_string_cases (k : string) (d : list (string * json)) :
  opt_key k is_string d = true ->
  lookup k d = None \/ exists s, lookup k d = Some (JStr s).
Proof.
  unfold opt_key. destruct (lookup k d) as [v |]; [| now left].
  destruct v; try discriminate. intros _. right. now exists s.
Qed.

Lemma lookup_some_truthy (k : string) (d : list (string * json)) (v : json) :
  lookup k d = Some v -> truthy (JObj d) = true.
Proof. destruct d; [discriminate | reflexivity]. Qed.

(** *** Postal addresses *)

Lemma address_ok_keys (addr : list (string * json)) :
  address_ok addr = true ->
  forall k, In k address_keys -> opt_key k is_string addr = true.
Proof.
  unfold address_ok. rewrite forallb_forall. auto.
Qed.

Lemma get_or_text (addr : list (string * json)) (k : string) (default : json) :
  opt_key k is_string addr = true ->
  truthy default = false ->
  truthy (get_or addr k default) = nonempty (text_of addr k)
  /\ (nonempty (text_of addr k) = true ->
      get_or addr k default = JStr (text_of addr k)).
Proof.
  intros Hk Hd. unfold get_or, text_of.
  destruct (opt_string_cases _ _ Hk) as [-> | [s ->]].
  - split; [exact Hd | discriminate].
  - split; [now destruct s | reflexivity].
Qed.

Lemma format_address_compose (addr : list (string * json)) :
  address_ok addr = true ->
  format_address addr = Ok (compose_address addr).
Proof.
  intros Hok. pose proof (address_ok_keys _ Hok) as Hkeys.
  assert (Hin : forall k, existsb (String.eqb k) address_keys = true ->
                          In k address_keys).
  { intros k [k' [Hk ->%String.eqb_eq]]%existsb_exists. exact Hk. }
  assert (Hs := get_or_text addr "street" JNull
                  (Hkeys _ (Hin "street" eq_refl)) eq_refl).
  assert (Hc := get_or_text addr "city" (JStr EmptyString)
                  (Hkeys _ (Hin "city" eq_refl)) eq_refl).
  assert (Ht := get_or_text addr "state" (JStr EmptyString)
                  (Hkeys _ (Hin "state" eq_refl)) eq_refl).
  assert (Hz := get_or_text addr "zip" (JStr EmptyString)
                  (Hkeys _ (Hin "zip" eq_refl)) eq_refl).
  assert (Hy := get_or_text addr "country" (JStr EmptyString)
                  (Hkeys _ (Hin "country" eq_refl)) eq_refl).
  unfold format_address, compose_address, address_segments.
  destruct Hs as [Hs1 Hs2], Hc as [Hc1 Hc2], Ht as [Ht1 Ht2],
           Hz as [Hz1 Hz2], Hy as [Hy1 Hy2].
  cbn [filter]. rewrite Hs1, Hc1, Ht1, Hz1, Hy1.
  destruct (nonempty (text_of addr "street")) eqn:Es;
    [rewrite (Hs2 eq_refl) |];
  (destruct (nonempty (text_of addr "city")) eqn:Ec;
    [rewrite (Hc2 eq_refl) |]);
  (destruct (nonempty (text_of addr "state")) eqn:Et;
    [rewrite (Ht2 eq_refl) |]);
  (destruct (nonempty (text_of addr "zip")) eqn:Ez;
    [rewrite (Hz2 eq_refl) |]);
  (destruct (nonempty (text_of addr "country")) eqn:Ey;
    [rewrite (Hy2 eq_refl) |]);
  try (destruct (text_of addr "street"); [discriminate Es |]);
  try (destruct (text_of addr "city"); [discriminate Ec |]);
  try (destruct (text_of addr "state"); [discriminate Et |]);
  try (destruct (text_of addr "zip"); [discriminate Ez |]);
  try (destruct (text_of addr "country"); [discriminate Ey |]);
  reflexivity.
Qed.

(** C8: a postal address is composed of the street, then the city,
    state and postal code joined with a comma and a space, then the
    country, the empty members left out, the segments joined with a comma
    and a space; the result is absent when no segment is left. *)
Theorem format_field_value_address (d addr : list (string * json)) :
  recognized d = false ->
  lookup "address" d = Some (JObj addr) ->
  address_ok addr = true ->
  format_field_value (JObj d) = Ok (compose_address addr).
Proof.
  intros Hrec Haddr Hok. unfold format_field_value.
  rewrite (lookup_some_truthy _ _ _ Haddr). cbn [negb].
  unfold recognized, has_key in Hrec.
  destruct (lookup "concealed" d); [discriminate |].
  destruct (lookup "string" d); [discriminate |].
  destruct (lookup "ssoLogin" d); [discriminate |].
  destruct (lookup "menu" d); [discriminate |].
  rewrite Haddr. now apply format_address_compose.
Qed.

(** *** Unrecognized shapes *)

Lemma format_field_value_unrecognized (d : list (string * json)) :
  unrecognized d = true ->
  format_field_value (JObj d)
  = Ok (if truthy (JObj d) then first_incidental incidental_keys d else JNull).
Proof.
  unfold unrecognized, recognized, has_key, format_field_value.
  destruct (truthy (JObj d)); [| reflexivity]. cbn [negb].
  destruct (lookup "concealed" d); [discriminate |].
  destruct (lookup "string" d); [discriminate |].
  destruct (lookup "ssoLogin" d); [discriminate |].
  destruct (lookup "menu" d); [discriminate |].
  destruct (lookup "address" d) as [[] |]; try discriminate; reflexivity.
Qed.

Lemma first_incidental_hit (d : list (string * json)) (key : string)
  (val : json) (after : list string) :
  lookup key d = Some val ->
  truthy val = true ->
  forall before,
    Forall (empty_at d) before ->
    first_incidental (before ++ key :: after) d = JStr (py_str val).
Proof.
  intros Hkey Hval. induction before as [| k before IH]; intros Hbefore.
  - cbn. now rewrite Hkey, Hval.
  - inversion Hbefore as [| ? ? Hk Hrest]; subst. cbn.
    unfold empty_at, get_or in Hk.
    destruct (lookup k d) as [v |]; [rewrite Hk |]; now apply IH.
Qed.

Lemma first_incidental_miss (d : list (string * json)) (keys : list string) :
  Forall (empty_at d) keys -> first_incidental keys d = JNull.
Proof.
  induction 1 as [| k keys Hk _ IH]; [reflexivity |]. cbn.
  unfold empty_at, get_or in Hk.
  destruct (lookup k d) as [v |]; [rewrite Hk |]; exact IH.
Qed.

(** C9, amended: for a field value of unrecognized shape, the first key
    of [value], [text], [name], [label] whose value is not empty decides
    the result, the keys before it being missing or empty; the result is
    absent when each of the four keys is missing or empty. *)
Theorem format_field_value_incidental (d : list (string * json)) :
  unrecognized d = true ->
  (forall before key after val,
      incidental_keys = (before ++ key :: after)%list ->
      Forall (empty_at d) before ->
      lookup key d = Some val ->
      truthy val = true ->
      format_field_value (JObj d) = Ok (JStr (py_str val)))
  /\ (Forall (empty_at d) incidental_keys ->
      format_field_value (JObj d) = Ok JNull).
Proof.
  intros Hun. rewrite (format_field_value_unrecognized _ Hun). split.
  - intros before key after val Hkeys Hbefore Hkey Hval.
    rewrite (lookup_some_truthy _ _ _ Hkey), Hkeys.
    f_equal. now apply first_incidental_hit.
  - intros Hall. rewrite (first_incidental_miss _ _ Hall).
    now destruct (truthy (JObj d)).
Qed.

(** *** The formatter on the shapes of the data model *)

Lemma format_field_value_text (r : json) :
  is_text r = true ->
  format_field_value r = Ok (if truthy r then r else JNull).
Proof.
  destruct r; try discriminate; intros _; [reflexivity |].
  now destruct s.
Qed.

Lemma first_incidental_is_text (keys : list string) (d : list (string * json)) :
  is_text (first_incidental keys d) = true.
Proof.
  induction keys as [| k keys IH]; [reflexivity |]. cbn.
  destruct (lookup k d) as [v |]; [| exact IH].
  destruct (truthy v); [reflexivity | exact IH].
Qed.

Lemma compose_address_is_text (addr : list (string * json)) :
  is_text (compose_address addr) = true.
Proof.
  unfold compose_address. now destruct (address_segments addr).
Qed.

Lemma format_field_value_returns_text (v : json) :
  field_value_typed v = true ->
  exists r, format_field_value v = Ok r /\ is_text r = true.
Proof.
  intros Hty. unfold format_field_value.
  destruct (truthy v) eqn:Htruthy; cbn [negb]; [| now exists JNull].
  destruct v as [| b | n | nz text | s | l | d];
    try (eexists; split; reflexivity).
  cbn [field_value_typed] in Hty.
  destruct (lookup "concealed" d) as [c |].
  { exists c. split; [reflexivity | now destruct c]. }
  destruct (lookup "string" d) as [str |].
  { exists str. split; [reflexivity | now destruct str]. }
  destruct (lookup "ssoLogin" d) as [sso |].
  { destruct sso as [| | | | | | sso_login]; try (now exists JNull).
    eexists; split; [reflexivity |]. unfold get_or.
    destruct (opt_string_cases _ _ Hty) as [-> | [p ->]]; [reflexivity |].
    now destruct (truthy (JStr p)). }
  destruct (lookup "menu" d) as [m |].
  { eexists; split; [reflexivity |].
    destruct m; try discriminate. now destruct (truthy (JStr s)). }
  destruct (lookup "address" d) as [a |].
  2: { eexists; split; [reflexivity | apply first_incidental_is_text]. }
  destruct a as [| | | | | | addr];
    try (eexists; split; [reflexivity | apply first_incidental_is_text]).
  rewrite (format_address_compose _ Hty).
  eexists; split; [reflexivity | apply compose_address_is_text].
Qed.

(** C3, amended: on a field value of the data model the formatter
    returns a string or absent and raises nothing; applied to its own
    output it returns that output when the output is absent or a string
    that is not empty, and absent when the output is the empty string. *)
Theorem format_field_value_total_idempotent (v : json) :
  field_value_typed v = true ->
  exists r,
    format_field_value v = Ok r
    /\ is_text r = true
    /\ format_field_value r = Ok (if truthy r then r else JNull).
Proof.
  intros Hty.
  destruct (format_field_value_returns_text v Hty) as [r [Hr Htext]].
  exists r. repeat split; trivial. now apply format_field_value_text.
Qed.

(** *** OTP fields and the notes *)

Lemma lookup_set_key_same (k : string) (v : json) (d : list (string * json)) :
  lookup k (set_key k v d) = Some v.
Proof.
  induction d as [| [k' v'] d IH]; cbn.
  - now rewrite String.eqb_refl.
  - destruct (String.eqb k k') eqn:E; cbn.
    + now rewrite String.eqb_refl.
    + now rewrite E.
Qed.

Lemma lookup_set_key_other (k k' : string) (v : json)
  (d : list (string * json)) :
  String.eqb k' k = false ->
  lookup k' (set_key k v d) = lookup k' d.
Proof.
  intros Hne. induction d as [| [k0 v0] d IH]; cbn.
  - now rewrite Hne.
  - destruct (String.eqb k k0) eqn:E; cbn.
    + apply String.eqb_eq in E. subst k0. now rewrite Hne.
    + now rewrite IH.
Qed.

Lemma get_or_set_key_other (k k' : string) (v default : json)
  (d : list (string * json)) :
  String.eqb k' k = false ->
  get_or (set_key k v d) k' default = get_or d k' default.
Proof.
  intros Hne. unfold get_or. now rewrite lookup_set_key_other.
Qed.

Lemma get_or_set_key_same (k : string) (v default : json)
  (d : list (string * json)) :
  get_or (set_key k v d) k default = v.
Proof.
  unfold get_or. now rewrite lookup_set_key_same.
Qed.

Lemma is_totp_field_skipped (field : json) :
  is_totp_field field = true ->
  (let* field_id := py_get field "id" (JStr EmptyString) in
   py_startswith field_id "TOTP_") = Ok true.
Proof.
  destruct field as [| | | | | | d]; try discriminate. cbn.
  destruct (get_or d "id" (JStr EmptyString)); try discriminate.
  cbn. now intros ->.
Qed.

Lemma fields_of_section_drop (section_title : json) (fields : list json) :
  forall section_fields,
    fields_of_section section_title
      (filter (fun f => negb (is_totp_field f)) fields) section_fields
    = fields_of_section section_title fields section_fields.
Proof.
  induction fields as [| field rest IH]; intros acc; [reflexivity |].
  cbn [filter]. destruct (is_totp_field field) eqn:Htotp; cbn [negb].
  - rewrite IH. cbn [fields_of_section].
    pose proof (is_totp_field_skipped _ Htotp) as Hskip.
    destruct (py_get field "id" (JStr EmptyString)) as [field_id |];
      [| discriminate].
    cbn [bind] in *. now rewrite Hskip.
  - cbn [fields_of_section].
    destruct (py_get field "id" (JStr EmptyString)) as [field_id |];
      [| reflexivity].
    cbn [bind].
    destruct (py_startswith field_id "TOTP_") as [[] |]; cbn [bind];
      [apply IH | | reflexivity].
    destruct (py_get field "title" (JStr EmptyString)); [| reflexivity].
    destruct (py_get field "value" (JStr EmptyString)); [| reflexivity].
    cbn [bind].
    destruct (format_field_value a0) as [formatted |]; [| reflexivity].
    cbn [bind].
    destruct (truthy formatted); [| apply IH].
    destruct (truthy section_title && truthy a); [apply IH |].
    destruct (truthy a); apply IH.
Qed.

Lemma section_loop_drop (section : json) (section_fields : list json) :
  (let* section_title := py_get (drop_totp_fields section) "title"
                           (JStr EmptyString) in
   let* fields := py_get (drop_totp_fields section) "fields" (JArr []) in
   let* fs := py_iter fields in
   fields_of_section section_title fs section_fields)
  = (let* section_title := py_get section "title" (JStr EmptyString) in
     let* fields := py_get section "fields" (JArr []) in
     let* fs := py_iter fields in
     fields_of_section section_title fs section_fields).
Proof.
  destruct section as [| | | | | | d]; try reflexivity.
  cbn [drop_totp_fields].
  destruct (lookup "fields" d) as [fields |] eqn:Hfields; [| reflexivity].
  destruct fields as [| | | | | fs |]; try reflexivity.
  cbn [py_get bind].
  rewrite (get_or_set_key_other "fields" "title") by reflexivity.
  rewrite get_or_set_key_same.
  replace (get_or d "fields" (JArr [])) with (JArr fs)
    by (unfold get_or; now rewrite Hfields).
  cbn [py_iter bind].
  apply fields_of_section_drop.
Qed.

Lemma fields_of_sections_cons (section : json)
  (rest section_fields : list json) :
  fields_of_sections (section :: rest) section_fields
  = bind (let* section_title := py_get section "title" (JStr EmptyString) in
          let* fields := py_get section "fields" (JArr []) in
          let* fs := py_iter fields in
          fields_of_section section_title fs section_fields)
         (fields_of_sections rest).
Proof.
  cbn [fields_of_sections].
  destruct (py_get section "title" (JStr EmptyString)); [| reflexivity].
  destruct (py_get section "fields" (JArr [])) as [fields |]; [| reflexivity].
  cbn [bind]. now destruct (py_iter fields).
Qed.

Lemma fields_of_sections_drop (sections : list json) :
  forall section_fields,
    fields_of_sections (map drop_totp_fields sections) section_fields
    = fields_of_sections sections section_fields.
Proof.
  induction sections as [| section rest IH]; intros acc; [reflexivity |].
  cbn [map]. rewrite !fields_of_sections_cons, section_loop_drop.
  destruct (let* section_title := py_get section "title" (JStr EmptyString) in
            let* fields := py_get section "fields" (JArr []) in
            let* fs := py_iter fields in
            fields_of_section section_title fs acc); [apply IH | reflexivity].
Qed.

Lemma build_notes_drop_totp (details overview : json) :
  build_notes (drop_totp details) overview = build_notes details overview.
Proof.
  destruct details as [| | | | | | d]; try reflexivity.
  cbn [drop_totp].
  destruct (lookup "sections" d) as [sections |] eqn:Hsections;
    [| reflexivity].
  destruct sections as [| | | | | ss |]; try reflexivity.
  unfold build_notes. cbn [py_get].
  rewrite (get_or_set_key_other "sections" "notesPlain") by reflexivity.
  rewrite (get_or_set_key_other "sections" "loginFields") by reflexivity.
  rewrite (get_or_set_key_other "sections" "passwordHistory") by reflexivity.
  rewrite get_or_set_key_same.
  replace (get_or d "sections" (JArr [])) with (JArr ss)
    by (unfold get_or; now rewrite Hsections).
  cbn [bind py_iter]. now rewrite fields_of_sections_drop.
Qed.

(** C7: the notes of an item are those of the item without the fields
    whose id starts with [TOTP_]: such a field is rendered into no block
    of the notes. *)
Theorem build_notes_without_totp (details overview : json) :
  build_notes (drop_totp details) overview = build_notes details overview.
Proof. exact (build_notes_drop_totp details overview). Qed.

Lemma py_get_drop_totp (details : json) (k : string) (default : json) :
  String.eqb k "sections" = false ->
  py_get (drop_totp details) k default = py_get details k default.
Proof.
  intros Hk. destruct details as [| | | | | | d]; try reflexivity.
  cbn [drop_totp].
  destruct (lookup "sections" d) as [[] |]; try reflexivity.
  cbn [py_get]. now rewrite get_or_set_key_other.
Qed.

(** The columns of the row other than [OTPAuth] are those of the item
    without its OTP fields. *)
Lemma columns_without_totp (item : json) (r r' : row) :
  convert_item_to_csv_row item = Ok r ->
  convert_item_to_csv_row (drop_totp_item item) = Ok r' ->
  Title r' = Title r /\ URL r' = URL r /\ Username r' = Username r
  /\ Password r' = Password r /\ Notes r' = Notes r.
Proof.
  destruct item as [| | | | | | i]; try discriminate.
  cbn [drop_totp_item].
  destruct (lookup "details" i) as [details |] eqn:Hdetails.
  2: { intros -> [= ->]. auto. }
  unfold convert_item_to_csv_row. cbn [py_get bind].
  rewrite (get_or_set_key_other "details" "overview") by reflexivity.
  rewrite get_or_set_key_same.
  replace (get_or i "details" (JObj [])) with details
    by (unfold get_or; now rewrite Hdetails).
  rewrite build_notes_drop_totp.
  rewrite (py_get_drop_totp details "loginFields") by reflexivity.
  intros H H'.
  apply bind_ok in H as [title [Htitle H]].
  apply bind_ok in H' as [title' [Htitle' H']].
  apply bind_ok in H as [url [Hurl H]].
  apply bind_ok in H' as [url' [Hurl' H']].
  apply bind_ok in H as [login_fields [Hlogin H]].
  apply bind_ok in H' as [login_fields' [Hlogin' H']].
  assert (login_fields' = login_fields) by congruence. subst login_fields'.
  apply bind_ok in H as [username [Husername H]].
  apply bind_ok in H' as [username' [Husername' H']].
  apply bind_ok in H as [password [Hpassword H]].
  apply bind_ok in H' as [password' [Hpassword' H']].
  apply bind_ok in H as [sections [_ H]].
  apply bind_ok in H' as [sections' [_ H']].
  apply bind_ok in H as [otp_auth [_ H]].
  apply bind_ok in H' as [otp_auth' [_ H']].
  apply bind_ok in H as [notes [Hnotes [= <-]]].
  apply bind_ok in H' as [notes' [Hnotes' [= <-]]].
  cbn [Title URL Username Password Notes].
  repeat split; congruence.
Qed.


(** *** Items of the data model raise nothing *)

Lemma returns_ok {A : Type} (a : A) : returns (Ok a).
Proof. now exists a. Qed.

Lemma returns_bind {A B : Type} (r : result A) (k : A -> result B) :
  returns r -> (forall a, r = Ok a -> returns (k a)) -> returns (bind r k).
Proof.
  intros [a ->] Hk. cbn. now apply Hk.
Qed.

Lemma opt_key_get_or (k : string) (p : json -> bool)
  (d : list (string * json)) (default : json) :
  opt_key k p d = true -> p default = true -> p (get_or d k default) = true.
Proof.
  unfold opt_key, get_or. now destruct (lookup k d).
Qed.

Lemma list_of_inv (p : json -> bool) (v : json) :
  list_of p v = true -> exists l, v = JArr l /\ forallb p l = true.
Proof.
  destruct v; try discriminate. intros H. now exists l.
Qed.

Lemma obj_of_inv (p : list (string * json) -> bool) (v : json) :
  obj_of p v = true -> exists d, v = JObj d /\ p d = true.
Proof.
  destruct v; try discriminate. intros H. now exists kvs.
Qed.

Lemma is_obj_inv (v : json) : is_obj v = true -> exists d, v = JObj d.
Proof.
  destruct v; try discriminate. intros _. now exists kvs.
Qed.

Lemma is_string_inv (v : json) : is_string v = true -> exists s, v = JStr s.
Proof.
  destruct v; try discriminate. intros _. now exists s.
Qed.

Lemma first_designated_returns (designation : string) (fields : list json) :
  forallb is_obj fields = true ->
  returns (first_designated designation fields).
Proof.
  induction fields as [| field rest IH]; cbn [forallb first_designated].
  - intros _. apply returns_ok.
  - intros [Hobj Hrest]%andb_prop.
    destruct (is_obj_inv _ Hobj) as [d ->]. cbn [py_get bind].
    destruct (is_str _ designation); [apply returns_ok | now apply IH].
Qed.

Lemma otp_of_fields_returns (fields : list json) :
  forallb section_field_ok fields = true ->
  returns (otp_of_fields fields).
Proof.
  induction fields as [| field rest IH]; cbn [forallb otp_of_fields].
  - intros _. apply returns_ok.
  - intros [Hfield Hrest]%andb_prop. specialize (IH Hrest).
    destruct (obj_of_inv _ _ Hfield) as [d [-> [Hid _]%andb_prop]].
    cbn [py_get bind].
    destruct (is_string_inv _ (opt_key_get_or _ _ _ (JStr EmptyString)
                                 Hid eq_refl)) as [id ->].
    cbn [py_startswith bind].
    destruct (String.prefix "TOTP_" id); [| exact IH].
    destruct (get_or d "value" (JObj [])); try exact IH.
    + apply returns_ok.
    + cbn [py_get bind].
      destruct (truthy _); [apply returns_ok | exact IH].
Qed.

Lemma otp_of_sections_returns (sections : list json) :
  forallb section_ok sections = true ->
  returns (otp_of_sections sections).
Proof.
  induction sections as [| section rest IH]; cbn [forallb otp_of_sections].
  - intros _. apply returns_ok.
  - intros [Hsection Hrest]%andb_prop. specialize (IH Hrest).
    destruct (obj_of_inv _ _ Hsection) as [d [-> Hfields]].
    cbn [py_get bind].
    destruct (list_of_inv _ _ (opt_key_get_or _ _ _ (JArr []) Hfields eq_refl))
      as [fs [-> Hfs]].
    cbn [py_iter bind].
    destruct (otp_of_fields_returns _ Hfs) as [[v |] ->]; cbn [bind];
      [apply returns_ok | exact IH].
Qed.

Lemma extract_url_returns (d : list (string * json)) :
  opt_key "urls" (list_of is_obj) d = true ->
  returns (extract_url (JObj d)).
Proof.
  intros Hurls. unfold extract_url. cbn [py_get bind].
  destruct (truthy (get_or d "url" JNull)); [apply returns_ok |].
  destruct (list_of_inv _ _ (opt_key_get_or _ _ _ (JArr []) Hurls eq_refl))
    as [urls [-> Hobjs]].
  destruct urls as [| first rest]; [apply returns_ok |].
  cbn in Hobjs. apply andb_prop in Hobjs as [Hfirst _].
  destruct (is_obj_inv _ Hfirst) as [u ->]. cbn. apply returns_ok.
Qed.

Lemma other_login_fields_returns (fields : list json) :
  forallb is_obj fields = true ->
  forall other_fields, returns (other_login_fields fields other_fields).
Proof.
  induction fields as [| field rest IH]; cbn [forallb other_login_fields].
  - intros _ acc. apply returns_ok.
  - intros [Hobj Hrest]%andb_prop acc. specialize (IH Hrest).
    destruct (is_obj_inv _ Hobj) as [d ->]. cbn [py_get bind].
    destruct (negb _); [| apply IH].
    destruct (truthy (get_or d "value" _)); [| apply IH].
    destruct (truthy (get_or d "name" _)); apply IH.
Qed.

Lemma format_field_value_returns (v : json) :
  field_value_ok v = true -> returns (format_field_value v).
Proof.
  intros Hok. unfold format_field_value.
  destruct (truthy v); cbn [negb]; [| apply returns_ok].
  destruct v as [| | | | | | d]; try apply returns_ok.
  cbn [field_value_ok] in Hok. unfold recognized, has_key in Hok.
  destruct (lookup "concealed" d); [apply returns_ok |].
  destruct (lookup "string" d); [apply returns_ok |].
  destruct (lookup "ssoLogin" d) as [[] |]; try apply returns_ok.
  destruct (lookup "menu" d); [apply returns_ok |].
  cbn [orb] in Hok. unfold opt_key in Hok.
  destruct (lookup "address" d) as [[] |]; try apply returns_ok.
  rewrite (format_address_compose _ Hok). apply returns_ok.
Qed.

Lemma fields_of_section_returns (section_title : json) (fields : list json) :
  forallb section_field_ok fields = true ->
  forall section_fields,
    returns (fields_of_section section_title fields section_fields).
Proof.
  induction fields as [| field rest IH]; cbn [forallb fields_of_section].
  - intros _ acc. apply returns_ok.
  - intros [Hfield Hrest]%andb_prop acc. specialize (IH Hrest).
    destruct (obj_of_inv _ _ Hfield) as [d [-> [Hid Hvalue]%andb_prop]].
    cbn [py_get bind].
    destruct (is_string_inv _ (opt_key_get_or _ _ _ (JStr EmptyString)
                                 Hid eq_refl)) as [id ->].
    cbn [py_startswith bind].
    destruct (String.prefix "TOTP_" id); [apply IH |].
    destruct (format_field_value_returns _
                (opt_key_get_or _ _ _ (JStr EmptyString) Hvalue eq_refl))
      as [formatted ->].
    cbn [bind].
    destruct (truthy formatted); [| apply IH].
    destruct (truthy section_title && truthy _); [apply IH |].
    destruct (truthy _); apply IH.
Qed.

Lemma fields_of_sections_returns (sections : list json) :
  forallb section_ok sections = true ->
  forall section_fields, returns (fields_of_sections sections section_fields).
Proof.
  induction sections as [| section rest IH]; cbn [forallb fields_of_sections].
  - intros _ acc. apply returns_ok.
  - intros [Hsection Hrest]%andb_prop acc. specialize (IH Hrest).
    destruct (obj_of_inv _ _ Hsection) as [d [-> Hfields]].
    cbn [py_get bind].
    destruct (list_of_inv _ _ (opt_key_get_or _ _ _ (JArr []) Hfields eq_refl))
      as [fs [-> Hfs]].
    cbn [py_iter bind].
    destruct (fields_of_section_returns (get_or d "title" (JStr EmptyString))
                _ Hfs acc) as [acc' ->].
    cbn [bind]. apply IH.
Qed.

Lemma other_url_lines_returns (urls : list json) :
  forallb is_obj urls = true ->
  forall other_urls, returns (other_url_lines urls other_urls).
Proof.
  induction urls as [| url_obj rest IH]; cbn [forallb other_url_lines].
  - intros _ acc. apply returns_ok.
  - intros [Hobj Hrest]%andb_prop acc. specialize (IH Hrest).
    destruct (is_obj_inv _ Hobj) as [d ->]. cbn [py_get bind].
    destruct (truthy (get_or d "url" _)); [| apply IH].
    destruct (truthy (get_or d "label" _)); apply IH.
Qed.

Lemma all_str_returns (l : list json) :
  forallb is_string l = true -> returns (all_str l).
Proof.
  induction l as [| v l IH]; cbn [forallb all_str].
  - intros _. apply returns_ok.
  - intros [Hv Hl]%andb_prop. destruct (is_string_inv _ Hv) as [s ->].
    destruct (IH Hl) as [ss ->]. apply returns_ok.
Qed.

Lemma forallb_tl {A : Type} (p : A -> bool) (l : list A) :
  forallb p l = true -> forallb p (tl l) = true.
Proof.
  destruct l as [| a l]; [trivial |]. cbn. now intros [_ H]%andb_prop.
Qed.

Ltac next_step :=
  apply returns_bind; [| intros ? _; cbv beta zeta].

Lemma build_notes_returns (details overview : json) :
  details_ok details = true ->
  overview_ok overview = true ->
  returns (build_notes details overview).
Proof.
  intros Hdetails Hoverview.
  destruct (obj_of_inv _ _ Hdetails) as [d [-> Hd]].
  destruct (obj_of_inv _ _ Hoverview) as [o [-> Ho]].
  apply andb_prop in Hd as [[[Hnotes Hlogin]%andb_prop Hsections]%andb_prop
                              Hhistory].
  apply andb_prop in Ho as [Hurls Htags].
  unfold build_notes. cbv zeta. cbn [py_get bind].
  (* 1. *)
  destruct (is_string_inv _ (opt_key_get_or _ _ _ (JStr EmptyString)
                               Hnotes eq_refl)) as [notes_plain ->].
  next_step.
  { destruct (truthy (JStr notes_plain)); apply returns_ok. }
  (* 2. *)
  destruct (list_of_inv _ _ (opt_key_get_or _ _ _ (JArr []) Htags eq_refl))
    as [tags [-> Hstrs]].
  next_step.
  { destruct (truthy (JArr tags)); [| apply returns_ok].
    unfold py_join, join_list. cbn [py_iter bind].
    destruct (all_str_returns _ Hstrs) as [ss ->]. apply returns_ok. }
  (* 3. *)
  destruct (list_of_inv _ _ (opt_key_get_or _ _ _ (JArr []) Hlogin eq_refl))
    as [fields [-> Hfields]].
  cbn [py_iter bind].
  next_step; [now apply other_login_fields_returns |].
  (* 4. *)
  destruct (list_of_inv _ _ (opt_key_get_or _ _ _ (JArr []) Hsections eq_refl))
    as [ss [-> Hss]].
  cbn [py_iter bind].
  next_step; [now apply fields_of_sections_returns |].
  (* 5. *)
  destruct (list_of_inv _ _ (opt_key_get_or _ _ _ (JArr []) Hurls eq_refl))
    as [urls [-> Hobjs]].
  cbn [py_len bind].
  next_step.
  { destruct (1 <? length urls)%nat; [| apply returns_ok].
    cbn [py_rest py_iter bind].
    destruct (other_url_lines_returns _ (forallb_tl _ _ Hobjs) [])
      as [[| line lines] ->]; apply returns_ok. }
  (* 6. *)
  pose proof (opt_key_get_or _ _ _ (JArr []) Hhistory eq_refl) as Harr.
  destruct (get_or d "passwordHistory" (JArr [])); try discriminate.
  next_step; [| apply returns_ok].
  destruct (truthy (JArr l)); apply returns_ok.
Qed.

Lemma item_ok_converts (item : json) :
  item_ok item = true -> returns (convert_item_to_csv_row item).
Proof.
  intros Hitem.
  destruct (obj_of_inv _ _ Hitem) as [i [-> [Hov Hde]%andb_prop]].
  pose proof (opt_key_get_or _ _ _ (JObj []) Hov eq_refl) as Hoverview.
  pose proof (opt_key_get_or _ _ _ (JObj []) Hde eq_refl) as Hdetails.
  unfold convert_item_to_csv_row. cbn [py_get bind].
  pose proof (build_notes_returns _ _ Hdetails Hoverview) as Hnotes.
  destruct (obj_of_inv _ _ Hoverview) as [o [Eo Ho]].
  destruct (obj_of_inv _ _ Hdetails) as [d [Ed Hd]].
  rewrite Eo, Ed in *. cbn [py_get bind].
  apply andb_prop in Hd as [[[_ Hlogin]%andb_prop Hsections]%andb_prop _].
  apply andb_prop in Ho as [Hurls _].
  next_step; [now apply extract_url_returns |].
  destruct (list_of_inv _ _ (opt_key_get_or _ _ _ (JArr []) Hlogin eq_refl))
    as [fields [-> Hfields]].
  unfold extract_username, extract_password. cbn [py_iter bind].
  next_step; [now apply first_designated_returns |].
  next_step; [now apply first_designated_returns |].
  destruct (list_of_inv _ _ (opt_key_get_or _ _ _ (JArr []) Hsections eq_refl))
    as [ss [Ess Hss]].
  unfold extract_otp_auth. rewrite Ess. cbn [py_iter bind].
  next_step; [now apply otp_of_sections_returns |].
  next_step; [exact Hnotes | apply returns_ok].
Qed.

(** C4, amended: the conversion of an item of the data model to a row
    raises nothing, whatever keys are missing and whatever the shape of
    the values of its section fields, a postal address with a sub-field
    that is not a string apart. *)
Theorem convert_item_to_csv_row_returns (item : json) :
  item_ok item = true ->
  exists csv_row, convert_item_to_csv_row item = Ok csv_row.
Proof. exact (item_ok_converts item). Qed.

(** *** The filter on archived items *)

Lemma add_item_obj (include_archived : bool) (d : list (string * json))
  (csv_rows : list row) :
  add_item include_archived (JObj d) csv_rows
  = if included include_archived (JObj d)
    then let* csv_row := convert_item_to_csv_row (JObj d) in
         Ok (append csv_rows csv_row)
    else Ok csv_rows.
Proof.
  unfold add_item, included. cbn [py_get bind state_of].
  destruct include_archived; cbn [negb andb orb]; [reflexivity |].
  now destruct (is_str _ "archived").
Qed.

Lemma archived_is_obj (item : json) :
  is_str (state_of item) "archived" = true -> exists d, item = JObj d.
Proof.
  destruct item; try discriminate. intros _. now exists kvs.
Qed.

Lemma append_neq {A : Type} (l : list A) (x : A) : append l x <> l.
Proof.
  unfold append. intros H. apply (f_equal (@length A)) in H.
  rewrite length_app in H. cbn in H. lia.
Qed.

(** C5, amended: an item whose state is [archived] adds no row when
    archived items are not asked for.  When they are, its conversion is
    run: the rows become the rows so far followed by the one row of the
    conversion when it returns, as it does for every item of the data
    model, and its error is the error of the run when it raises.  An item
    of any other state is treated the same with and without the flag. *)
Theorem archived_items_filtered (item : json) (csv_rows : list row) :
  (is_str (state_of item) "archived" = true ->
   add_item false item csv_rows = Ok csv_rows
   /\ (forall csv_row,
         convert_item_to_csv_row item = Ok csv_row ->
         add_item true item csv_rows = Ok (csv_rows ++ [csv_row])%list)
   /\ (forall e,
         convert_item_to_csv_row item = Raise e ->
         add_item true item csv_rows = Raise e)
   /\ (item_ok item = true ->
       exists csv_row,
         convert_item_to_csv_row item = Ok csv_row
         /\ add_item true item csv_rows = Ok (csv_rows ++ [csv_row])%list))
  /\ (is_str (state_of item) "archived" = false ->
      add_item true item csv_rows = add_item false item csv_rows).
Proof.
  split.
  - intros Harchived. destruct (archived_is_obj _ Harchived) as [d ->].
    rewrite !add_item_obj. unfold included. rewrite Harchived.
    cbn [negb orb]. split; [reflexivity |]. split; [| split].
    + now intros r ->.
    + now intros e ->.
    + intros Hok. destruct (item_ok_converts _ Hok) as [r Hr].
      exists r. now rewrite Hr.
  - intros Hother. destruct item; try reflexivity.
    rewrite !add_item_obj. unfold included. now rewrite Hother.
Qed.

(** C10: an item without a [state] key is converted whatever the flag,
    as an active item is; and an item is left out only when the flag is
    not set and its state is the string [archived]. *)
Theorem missing_state_is_active (d : list (string * json))
  (include_archived : bool) (csv_rows : list row) :
  (lookup "state" d = None ->
   add_item include_archived (JObj d) csv_rows
   = (let* csv_row := convert_item_to_csv_row (JObj d) in
      Ok (append csv_rows csv_row))
   /\ (item_ok (JObj d) = true ->
       exists csv_row,
         add_item include_archived (JObj d) csv_rows
         = Ok (append csv_rows csv_row)))
  /\ (add_item include_archived (JObj d) csv_rows = Ok csv_rows ->
      include_archived = false /\ state_of (JObj d) = JStr "archived").
Proof.
  rewrite add_item_obj. split.
  - intros Hmissing.
    assert (Hin : included include_archived (JObj d) = true).
    { unfold included, state_of, get_or. rewrite Hmissing.
      now destruct include_archived. }
    rewrite Hin. split; [reflexivity |].
    intros Hok. destruct (item_ok_converts _ Hok) as [r ->].
    now exists r.
  - unfold included. destruct include_archived; cbn [orb].
    + destruct (convert_item_to_csv_row (JObj d)) as [r |]; cbn [bind];
        [| discriminate].
      intros [= H]. now apply append_neq in H.
    + destruct (is_str (state_of (JObj d)) "archived") eqn:Hstate;
        cbn [negb].
      * intros _. split; [reflexivity |].
        destruct (state_of (JObj d)); try discriminate.
        cbn in Hstate. apply String.eqb_eq in Hstate. now subst.
      * destruct (convert_item_to_csv_row (JObj d)) as [r |]; cbn [bind];
          [| discriminate].
        intros [= H]. now apply append_neq in H.
Qed.

(** *** The order of the rows *)

Lemma rows_of_nil (include_archived : bool) (csv_rows : list row) :
  rows_of include_archived [] csv_rows <-> csv_rows = [].
Proof.
  unfold rows_of, converted. cbn. split.
  - intros [_ H]. now inversion H.
  - intros ->. split; constructor.
Qed.

Lemma rows_of_app (include_archived : bool) (items1 items2 : list json)
  (csv_rows : list row) :
  rows_of include_archived (items1 ++ items2) csv_rows <->
  exists rows1 rows2,
    csv_rows = (rows1 ++ rows2)%list
    /\ rows_of include_archived items1 rows1
    /\ rows_of include_archived items2 rows2.
Proof.
  unfold rows_of, converted. rewrite filter_app, Forall_app. split.
  - intros [[H1 H2] H].
    apply Forall2_app_inv_l in H as [rows1 [rows2 [Hr1 [Hr2 ->]]]].
    exists rows1, rows2. auto.
  - intros [rows1 [rows2 [-> [[H1 Hr1] [H2 Hr2]]]]].
    split; [auto |]. now apply Forall2_app.
Qed.

Lemma rows_of_item (include_archived : bool) (item : json)
  (csv_rows : list row) :
  rows_of include_archived [item] csv_rows <->
  exists d,
    item = JObj d
    /\ if included include_archived item
       then exists csv_row,
              convert_item_to_csv_row item = Ok csv_row
              /\ csv_rows = [csv_row]
       else csv_rows = [].
Proof.
  unfold rows_of, converted. cbn [filter]. split.
  - intros [Hobj H]. inversion Hobj as [| ? ? Hitem _]; subst.
    destruct (is_obj_inv _ Hitem) as [d ->]. exists d. split; [reflexivity |].
    destruct (included include_archived (JObj d)).
    + inversion H as [| ? r ? rs Hr Hrs]; subst. inversion Hrs; subst.
      now exists r.
    + now inversion H.
  - intros [d [-> H]]. split; [now repeat constructor |].
    destruct (included include_archived (JObj d)).
    + destruct H as [r [Hr ->]]. now repeat constructor.
    + subst. constructor.
Qed.

Lemma add_item_rows (include_archived : bool) (item : json)
  (csv_rows out : list row) :
  add_item include_archived item csv_rows = Ok out <->
  exists rows,
    out = (csv_rows ++ rows)%list /\ rows_of include_archived [item] rows.
Proof.
  split.
  - intros Hadd. destruct item as [| | | | | | d]; try discriminate.
    rewrite add_item_obj in Hadd.
    destruct (included include_archived (JObj d)) eqn:Hin.
    + apply bind_ok in Hadd as [r [Hr [= <-]]].
      exists [r]. split; [reflexivity |]. apply rows_of_item.
      exists d. split; [reflexivity |]. rewrite Hin. now exists r.
    + injection Hadd as <-. exists []. split; [now rewrite app_nil_r |].
      apply rows_of_item. exists d. now rewrite Hin.
  - intros [rows [-> H]]. apply rows_of_item in H as [d [-> H]].
    rewrite add_item_obj.
    destruct (included include_archived (JObj d)).
    + destruct H as [r [-> ->]]. reflexivity.
    + subst. now rewrite app_nil_r.
Qed.

Lemma add_items_rows (include_archived : bool) (items : list json) :
  forall csv_rows out,
    add_items include_archived items csv_rows = Ok out <->
    exists rows,
      out = (csv_rows ++ rows)%list /\ rows_of include_archived items rows.
Proof.
  induction items as [| item rest IH]; intros acc out; cbn [add_items].
  - split.
    + intros [= <-]. exists []. split; [now rewrite app_nil_r |].
      now apply rows_of_nil.
    + intros [rows [-> ->%rows_of_nil]]. now rewrite app_nil_r.
  - rewrite bind_ok. split.
    + intros [acc' [[r1 [-> H1]]%add_item_rows [r2 [-> H2]]%IH]].
      exists (r1 ++ r2)%list. split; [now rewrite app_assoc |].
      apply (rows_of_app _ [item] rest). now exists r1, r2.
    + intros [rows [-> H]].
      apply (rows_of_app _ [item] rest) in H as [r1 [r2 [-> [H1 H2]]]].
      exists (acc ++ r1)%list. split.
      * apply add_item_rows. now exists r1.
      * apply IH. exists r2. now rewrite app_assoc.
Qed.

Lemma add_vaults_rows (include_archived : bool) (vaults : list json) :
  forall csv_rows out,
    add_vaults include_archived vaults csv_rows = Ok out <->
    exists items rows,
      items_of_vaults vaults = Ok items
      /\ out = (csv_rows ++ rows)%list
      /\ rows_of include_archived items rows.
Proof.
  induction vaults as [| vault rest IH]; intros acc out;
    cbn [add_vaults items_of_vaults].
  - split.
    + intros [= <-]. exists [], [].
      split; [reflexivity |]. split; [now rewrite app_nil_r |].
      now apply rows_of_nil.
    + intros [items [rows [[= <-] [-> ->%rows_of_nil]]]].
      now rewrite app_nil_r.
  - destruct (py_get vault "items" (JArr [])) as [items |]; cbn [bind].
    2: { split; [discriminate | now intros [? [? [? _]]]]. }
    destruct (py_iter items) as [its |]; cbn [bind].
    2: { split; [discriminate | now intros [? [? [? _]]]]. }
    rewrite bind_ok. split.
    + intros [acc' [[r1 [-> H1]]%add_items_rows
                      [more [r2 [Hmore [-> H2]]]]%IH]].
      exists (its ++ more)%list, (r1 ++ r2)%list. rewrite Hmore.
      split; [reflexivity |]. split; [now rewrite app_assoc |].
      apply rows_of_app. now exists r1, r2.
    + intros [all [rows [Hall [-> H]]]].
      apply bind_ok in Hall as [more [Hmore [= <-]]].
      apply rows_of_app in H as [r1 [r2 [-> [H1 H2]]]].
      exists (acc ++ r1)%list. split.
      * apply add_items_rows. now exists r1.
      * apply IH. exists more, r2. now rewrite app_assoc.
Qed.

Lemma add_accounts_rows (include_archived : bool) (accounts : list json) :
  forall csv_rows out,
    add_accounts include_archived accounts csv_rows = Ok out <->
    exists items rows,
      items_of_accounts accounts = Ok items
      /\ out = (csv_rows ++ rows)%list
      /\ rows_of include_archived items rows.
Proof.
  induction accounts as [| account rest IH]; intros acc out;
    cbn [add_accounts items_of_accounts].
  - split.
    + intros [= <-]. exists [], [].
      split; [reflexivity |]. split; [now rewrite app_nil_r |].
      now apply rows_of_nil.
    + intros [items [rows [[= <-] [-> ->%rows_of_nil]]]].
      now rewrite app_nil_r.
  - destruct (py_get account "vaults" (JArr [])) as [vaults |]; cbn [bind].
    2: { split; [discriminate | now intros [? [? [? _]]]]. }
    destruct (py_iter vaults) as [vs |]; cbn [bind].
    2: { split; [discriminate | now intros [? [? [? _]]]]. }
    rewrite bind_ok. split.
    + intros [acc' [[its [r1 [Hits [-> H1]]]]%add_vaults_rows
                      [more [r2 [Hmore [-> H2]]]]%IH]].
      exists (its ++ more)%list, (r1 ++ r2)%list. rewrite Hits, Hmore.
      split; [reflexivity |]. split; [now rewrite app_assoc |].
      apply rows_of_app. now exists r1, r2.
    + intros [all [rows [Hall [-> H]]]].
      apply bind_ok in Hall as [its [Hits Hall]].
      apply bind_ok in Hall as [more [Hmore [= <-]]].
      apply rows_of_app in H as [r1 [r2 [-> [H1 H2]]]].
      exists (acc ++ r1)%list. split.
      * apply add_vaults_rows. now exists its, r1.
      * apply IH. exists more, r2. now rewrite app_assoc.
Qed.

Lemma rows_of_length (include_archived : bool) (items : list json)
  (csv_rows : list row) :
  rows_of include_archived items csv_rows ->
  length csv_rows <= length items.
Proof.
  intros [_ H]. apply Forall2_length in H. rewrite <- H.
  apply filter_length_le.
Qed.

(** C6: the rows are the conversions of the included items in the order
    of the traversal of the document (accounts, then their vaults, then
    their items), one row for each included item; so there are at most as
    many rows as items. *)
Theorem rows_in_source_order (data : json) (include_archived : bool)
  (csv_rows : list row) :
  convert_1pux_to_csv data include_archived = Ok csv_rows <->
  exists items,
    items_of data = Ok items
    /\ Forall (fun item => is_obj item = true) items
    /\ converted (filter (included include_archived) items) csv_rows
    /\ length csv_rows <= length items.
Proof.
  unfold convert_1pux_to_csv, items_of.
  destruct (py_get data "accounts" (JArr [])) as [accounts |]; cbn [bind].
  2: { split; [discriminate | now intros [? [? _]]]. }
  destruct (py_iter accounts) as [accs |]; cbn [bind].
  2: { split; [discriminate | now intros [? [? _]]]. }
  rewrite add_accounts_rows. split.
  - intros [items [rows [Hitems [-> H]]]]. exists items. cbn [app].
    pose proof (rows_of_length _ _ _ H). destruct H. auto.
  - intros [items [Hitems [Hobjs [Hrows _]]]].
    exists items, csv_rows. repeat split; assumption.
Qed.

(** *** The OTP scan without empty plain strings *)

Lemma otp_of_fields_first (fields : list json) :
  forallb section_field_ok fields = true ->
  forallb (fun f => negb (plain_empty_otp f)) fields = true ->
  exists found,
    otp_of_fields fields = Ok found
    /\ forall rest,
         first_truthy (map otp_candidate fields ++ rest)
         = match found with
           | Some v => v
           | None => first_truthy rest
           end.
Proof.
  induction fields as [| field fields IH]; cbn [forallb].
  - intros _ _. now exists None.
  - intros [Hfield Hfields]%andb_prop [Hplain Hplains]%andb_prop.
    destruct (IH Hfields Hplains) as [found [Hfound Hfirst]].
    destruct (obj_of_inv _ _ Hfield) as [d [-> [Hid _]%andb_prop]].
    pose proof (opt_key_get_or _ _ _ (JStr EmptyString) Hid eq_refl) as Hstr.
    cbn [otp_of_fields map otp_candidate is_totp_field plain_empty_otp
         py_get bind app] in *.
    destruct (get_or d "id" (JStr EmptyString)) as [| | | | id | |];
      try discriminate.
    cbn [py_startswith bind].
    destruct (String.prefix "TOTP_" id).
    2: { exists found. now split. }
    destruct (get_or d "value" (JObj [])) as [| | | | seed | | descriptor];
      try (exists found; now split).
    + exists (Some (JStr seed)). split; [reflexivity |].
      intros rest. cbn [first_truthy].
      destruct seed; [discriminate | reflexivity].
    + cbn [py_get bind first_truthy].
      destruct (truthy (get_or descriptor "totp" (JStr EmptyString))).
      * eexists. split; reflexivity.
      * exists found. now split.
Qed.

Lemma otp_of_sections_first (sections : list json) :
  forallb section_ok sections = true ->
  forallb (fun f => negb (plain_empty_otp f)) (flat_map fields_in sections)
  = true ->
  otp_of_sections sections = Ok (first_nonempty_otp sections).
Proof.
  unfold first_nonempty_otp.
  induction sections as [| section rest IH]; cbn [forallb flat_map].
  - reflexivity.
  - intros [Hsection Hrest]%andb_prop Hplain.
    rewrite forallb_app in Hplain. apply andb_prop in Hplain as [Hhere Hthere].
    destruct (obj_of_inv _ _ Hsection) as [d [-> Hfields]].
    destruct (list_of_inv _ _ (opt_key_get_or _ _ _ (JArr []) Hfields eq_refl))
      as [fs [Efs Hfs]].
    cbn [otp_of_sections fields_in py_get bind] in *. rewrite Efs in *.
    cbn [py_iter bind].
    destruct (otp_of_fields_first _ Hfs Hhere) as [found [-> Hfirst]].
    cbn [bind]. rewrite map_app, Hfirst.
    destruct found; [reflexivity | now apply IH].
Qed.

(** Where no OTP field holds the empty string, [extract_otp_auth]
    returns the first candidate of the scan that is not empty. *)
Lemma extract_otp_auth_first_nonempty (sections : list json) :
  forallb section_ok sections = true ->
  forallb (fun f => negb (plain_empty_otp f)) (flat_map fields_in sections)
  = true ->
  extract_otp_auth (JArr sections) = Ok (first_nonempty_otp sections).
Proof.
  intros Hok Hplain. unfold extract_otp_auth. cbn [py_iter bind].
  now apply otp_of_sections_first.
Qed.

(** *** Documents of the data model *)

Lemma converted_exists (items : list json) :
  Forall (fun item => item_ok item = true) items ->
  exists csv_rows, converted items csv_rows.
Proof.
  induction 1 as [| item items Hitem _ [rows IH]].
  - exists []. constructor.
  - destruct (item_ok_converts _ Hitem) as [r Hr].
    exists (r :: rows). now constructor.
Qed.

Lemma item_ok_is_obj (item : json) : item_ok item = true -> is_obj item = true.
Proof. now destruct item. Qed.

(** A document whose traversal raises nothing and whose items are items
    of the data model is converted, with one row for each included
    item. *)
Lemma convert_1pux_to_csv_returns (data : json) (include_archived : bool)
  (items : list json) :
  items_of data = Ok items ->
  Forall (fun item => item_ok item = true) items ->
  exists csv_rows,
    convert_1pux_to_csv data include_archived = Ok csv_rows
    /\ converted (filter (included include_archived) items) csv_rows.
Proof.
  intros Hitems Hok.
  assert (Hin : Forall (fun item => item_ok item = true)
                  (filter (included include_archived) items)).
  { rewrite Forall_forall in *. intros item [Hi _]%filter_In. auto. }
  destruct (converted_exists _ Hin) as [rows Hrows].
  exists rows. split; [| exact Hrows].
  unfold convert_1pux_to_csv, items_of in *.
  destruct (py_get data "accounts" (JArr [])) as [accounts |];
    [| discriminate].
  cbn [bind] in *.
  destruct (py_iter accounts) as [accs |]; [| discriminate].
  cbn [bind] in *. apply add_accounts_rows.
  exists items, rows. split; [exact Hitems |]. split; [reflexivity |].
  split; [| exact Hrows].
  eapply Forall_impl; [| exact Hok]. apply item_ok_is_obj.
Qed.

(** *** The entry of the archive *)

Lemma ends_with_export_data (name : string) :
  ends_with name "export.data" || String.eqb name "export.data"
  = ends_with name "export.data".
Proof.
  destruct (String.eqb name "export.data") eqn:E.
  - apply String.eqb_eq in E. now subst.
  - apply orb_false_r.
Qed.

Lemma ends_with_nonempty (name : string) :
  ends_with name "export.data" = true -> nonempty_name name = true.
Proof. now destruct name. Qed.

Lemma export_data_name_some (names : list string) (name : string) :
  export_data_name names = Some name <->
  exists before after,
    names = (before ++ name :: after)%list
    /\ ends_with name "export.data" = true
    /\ Forall (fun n => ends_with n "export.data" = false) before.
Proof.
  induction names as [| n names IH]; cbn [export_data_name].
  - split; [discriminate |]. intros [[] [? [? _]]]; discriminate.
  - rewrite ends_with_export_data.
    destruct (ends_with n "export.data") eqn:E; split.
    + intros [= <-]. exists [], names. now repeat split.
    + intros [[| b before] [after [Hn [Hend Hbefore]]]];
        injection Hn as -> ->; [reflexivity |].
      inversion Hbefore; congruence.
    + intros [before [after [-> [Hend Hbefore]]]]%IH.
      exists (n :: before), after. repeat split; [assumption |].
      now constructor.
    + intros [[| b before] [after [Hn [Hend Hbefore]]]];
        injection Hn as -> ->; [congruence |].
      apply IH. exists before, after. inversion Hbefore. now repeat split.
Qed.

Lemma export_data_name_none (names : list string) :
  export_data_name names = None <->
  Forall (fun n => ends_with n "export.data" = false) names.
Proof.
  induction names as [| n names IH]; cbn [export_data_name].
  - split; [constructor | reflexivity].
  - rewrite ends_with_export_data.
    destruct (ends_with n "export.data") eqn:E; split.
    + discriminate.
    + intros H. inversion H; congruence.
    + intros H%IH. now constructor.
    + intros H. inversion H. now apply IH.
Qed.

(** The entry opened is the first whose name ends with [export.data],
    whatever precedes that suffix; [ValueError] is raised exactly when no
    name ends with it.  The test [name == 'export.data'] and the test for
    an empty name change nothing. *)
Theorem export_data_path_first (names : list string) :
  (forall name,
      export_data_path names = Some name <->
      exists before after,
        names = (before ++ name :: after)%list
        /\ ends_with name "export.data" = true
        /\ Forall (fun n => ends_with n "export.data" = false) before)
  /\ (export_data_path names = None <->
      Forall (fun n => ends_with n "export.data" = false) names).
Proof.
  unfold export_data_path. split.
  - intros name. rewrite <- export_data_name_some.
    destruct (export_data_name names) as [found |] eqn:E; [| reflexivity].
    assert (Hend : ends_with found "export.data" = true).
    { apply export_data_name_some in E as [? [? [_ [H _]]]]. exact H. }
    now rewrite (ends_with_nonempty _ Hend).
  - rewrite <- export_data_name_none.
    destruct (export_data_name names) as [found |] eqn:E; [| reflexivity].
    assert (Hend : ends_with found "export.data" = true).
    { apply export_data_name_some in E as [? [? [_ [H _]]]]. exact H. }
    rewrite (ends_with_nonempty _ Hend). split; discriminate.
Qed.

(** *** The primary credentials *)

Lemma first_designated_hit (designation : string) (d : list (string * json))
  (after : list json) :
  designated designation (JObj d) = true ->
  forall before,
    forallb (not_designated designation) before = true ->
    first_designated designation (before ++ JObj d :: after)
    = Ok (get_or d "value" (JStr EmptyString)).
Proof.
  intros Hd. induction before as [| f before IH]; cbn [forallb app].
  - intros _. cbn [first_designated py_get bind designated] in *.
    now rewrite Hd.
  - intros [[Hobj Hf]%andb_prop Hbefore]%andb_prop.
    destruct (is_obj_inv _ Hobj) as [fd ->].
    cbn [first_designated py_get bind designated] in *.
    apply negb_true_iff in Hf. rewrite Hf. now apply IH.
Qed.

Lemma first_designated_miss (designation : string) (fields : list json) :
  forallb (not_designated designation) fields = true ->
  first_designated designation fields = Ok JNull.
Proof.
  induction fields as [| f fields IH]; cbn [forallb]; [reflexivity |].
  intros [[Hobj Hf]%andb_prop Hfields]%andb_prop.
  destruct (is_obj_inv _ Hobj) as [fd ->].
  cbn [first_designated py_get bind designated] in *.
  apply negb_true_iff in Hf. rewrite Hf. now apply IH.
Qed.

(** [extract_username] and [extract_password] return the value of the
    first login field of their designation, the empty string when that
    field has no value; the fields after it are not looked at, whatever
    they are. *)
Theorem extract_credentials_first (before after : list json)
  (d : list (string * json)) :
  (designated "username" (JObj d) = true ->
   forallb (not_designated "username") before = true ->
   extract_username (JArr (before ++ JObj d :: after))
   = Ok (get_or d "value" (JStr EmptyString)))
  /\ (designated "password" (JObj d) = true ->
      forallb (not_designated "password") before = true ->
      extract_password (JArr (before ++ JObj d :: after))
      = Ok (get_or d "value" (JStr EmptyString))).
Proof.
  unfold extract_username, extract_password. cbn [py_iter bind].
  split; intros Hd Hbefore; now apply first_designated_hit.
Qed.

(** [extract_username] and [extract_password] return [None] when no
    login field has their designation, and for the empty list. *)
Theorem extract_credentials_none (fields : list json) :
  (forallb (not_designated "username") fields = true ->
   extract_username (JArr fields) = Ok JNull)
  /\ (forallb (not_designated "password") fields = true ->
      extract_password (JArr fields) = Ok JNull).
Proof.
  unfold extract_username, extract_password. cbn [py_iter bind].
  split; apply first_designated_miss.
Qed.

(** *** The primary URL *)

(** [extract_url] returns [overview.url] when it is not empty, whatever
    [urls] holds; otherwise the [url] of the first entry of [urls], the
    empty string when that entry has none; and [None] when [urls] is
    missing or empty too. *)
Theorem extract_url_priority (o : list (string * json)) :
  (truthy (get_or o "url" JNull) = true ->
   extract_url (JObj o) = Ok (get_or o "url" JNull))
  /\ (truthy (get_or o "url" JNull) = false ->
      forall u rest,
        get_or o "urls" (JArr []) = JArr (JObj u :: rest) ->
        extract_url (JObj o) = Ok (get_or u "url" (JStr EmptyString)))
  /\ (truthy (get_or o "url" JNull) = false ->
      truthy (get_or o "urls" (JArr [])) = false ->
      extract_url (JObj o) = Ok JNull).
Proof.
  unfold extract_url. cbn [py_get bind]. repeat split.
  - now intros ->.
  - intros -> u rest ->. reflexivity.
  - now intros -> ->.
Qed.

(** *** What the notes leave out *)

Lemma is_str_get_or (d : list (string * json)) (k s : string)
  (default default' : json) :
  is_str default s = false ->
  is_str default' s = false ->
  is_str (get_or d k default) s = is_str (get_or d k default') s.
Proof.
  unfold get_or. destruct (lookup k d); [reflexivity | congruence].
Qed.

Lemma other_login_fields_drop (fields : list json) :
  forall other_fields,
    other_login_fields
      (filter (fun f => negb (is_credential_field f)) fields) other_fields
    = other_login_fields fields other_fields.
Proof.
  induction fields as [| field rest IH]; intros acc; [reflexivity |].
  cbn [filter]. destruct (is_credential_field field) eqn:Hcred; cbn [negb].
  - rewrite IH. destruct field as [| | | | | | d]; try discriminate.
    cbn [other_login_fields py_get bind].
    unfold is_credential_field, designated in Hcred.
    rewrite (is_str_get_or d "designation" "username" JNull (JStr EmptyString))
      in Hcred by reflexivity.
    rewrite (is_str_get_or d "designation" "password" JNull (JStr EmptyString))
      in Hcred by reflexivity.
    now rewrite Hcred.
  - cbn [other_login_fields].
    destruct (py_get field "designation" (JStr EmptyString)) as [des |];
      [| reflexivity].
    cbn [bind]. destruct (negb _); [| apply IH].
    destruct (py_get field "name" (JStr EmptyString)) as [name |];
      [| reflexivity].
    destruct (py_get field "value" (JStr EmptyString)) as [value |];
      [| reflexivity].
    cbn [bind]. destruct (truthy value); [| apply IH].
    destruct (truthy name); apply IH.
Qed.

(** The notes are those of the item without its login fields designated
    [username] or [password]: neither is rendered into the notes, not
    even a second field of the same designation. *)
Theorem build_notes_without_credentials (details overview : json) :
  build_notes (drop_credentials details) overview
  = build_notes details overview.
Proof.
  destruct details as [| | | | | | d]; try reflexivity.
  cbn [drop_credentials].
  destruct (lookup "loginFields" d) as [fields |] eqn:Hfields;
    [| reflexivity].
  destruct fields as [| | | | | fs |]; try reflexivity.
  unfold build_notes. cbn [py_get].
  rewrite (get_or_set_key_other "loginFields" "notesPlain") by reflexivity.
  rewrite (get_or_set_key_other "loginFields" "sections") by reflexivity.
  rewrite (get_or_set_key_other "loginFields" "passwordHistory")
    by reflexivity.
  rewrite get_or_set_key_same.
  replace (get_or d "loginFields" (JArr [])) with (JArr fs)
    by (unfold get_or; now rewrite Hfields).
  cbn [bind py_iter]. now rewrite other_login_fields_drop.
Qed.

(** The notes depend on the password history through its length only:
    no entry of the history is rendered. *)
Theorem build_notes_history_length (d : list (string * json))
  (overview : json) (history history' : list json) :
  lookup "passwordHistory" d = Some (JArr history) ->
  length history' = length history ->
  build_notes (JObj (set_key "passwordHistory" (JArr history') d)) overview
  = build_notes (JObj d) overview.
Proof.
  intros Hhistory Hlength. unfold build_notes. cbn [py_get].
  rewrite (get_or_set_key_other "passwordHistory" "notesPlain")
    by reflexivity.
  rewrite (get_or_set_key_other "passwordHistory" "loginFields")
    by reflexivity.
  rewrite (get_or_set_key_other "passwordHistory" "sections") by reflexivity.
  rewrite get_or_set_key_same.
  replace (get_or d "passwordHistory" (JArr [])) with (JArr history)
    by (unfold get_or; now rewrite Hhistory).
  cbn [bind py_len]. rewrite Hlength.
  replace (truthy (JArr history')) with (truthy (JArr history))
    by (destruct history, history'; try discriminate; reflexivity).
  reflexivity.
Qed.

Lemma build_notes_first_url (details : json) (o : list (string * json))
  (first first' : json) (rest : list json) :
  lookup "urls" o = Some (JArr (first :: rest)) ->
  build_notes details (JObj (set_key "urls" (JArr (first' :: rest)) o))
  = build_notes details (JObj o).
Proof.
  intros Hurls. unfold build_notes. cbn [py_get].
  rewrite (get_or_set_key_other "urls" "tags") by reflexivity.
  rewrite get_or_set_key_same.
  replace (get_or o "urls" (JArr [])) with (JArr (first :: rest))
    by (unfold get_or; now rewrite Hurls).
  cbn [bind py_len py_rest tl length]. reflexivity.
Qed.

(** The first entry of [urls] is never rendered into the notes, whatever
    it is. *)
Theorem build_notes_skips_first_url (details : json)
  (o : list (string * json)) (first first' : json) (rest : list json) :
  lookup "urls" o = Some (JArr (first :: rest)) ->
  build_notes details (JObj (set_key "urls" (JArr (first' :: rest)) o))
  = build_notes details (JObj o).
Proof. exact (build_notes_first_url details o first first' rest). Qed.

(** When [overview.url] is not empty the first entry of [urls] reaches
    no column: the row is the same whatever that entry is. *)
Theorem first_url_entry_unused (i o : list (string * json))
  (first first' : json) (rest : list json) :
  lookup "overview" i = Some (JObj o) ->
  lookup "urls" o = Some (JArr (first :: rest)) ->
  truthy (get_or o "url" JNull) = true ->
  convert_item_to_csv_row
    (JObj (set_key "overview"
             (JObj (set_key "urls" (JArr (first' :: rest)) o)) i))
  = convert_item_to_csv_row (JObj i).
Proof.
  intros Hoverview Hurls Hurl. unfold convert_item_to_csv_row.
  cbn [py_get bind].
  rewrite (get_or_set_key_other "overview" "details") by reflexivity.
  rewrite get_or_set_key_same.
  replace (get_or i "overview" (JObj [])) with (JObj o)
    by (unfold get_or; now rewrite Hoverview).
  cbn [py_get bind].
  rewrite (get_or_set_key_other "urls" "title") by reflexivity.
  rewrite (build_notes_first_url _ _ _ first' _ Hurls).
  unfold extract_url. cbn [py_get bind].
  rewrite (get_or_set_key_other "urls" "url") by reflexivity.
  now rewrite Hurl.
Qed.

(** *** The columns of a row *)

Lemma or_empty_defaulted (v : json) : defaulted (or_empty v).
Proof.
  unfold defaulted, or_empty. destruct (truthy v) eqn:E; auto.
Qed.

(** The columns [URL], [Username], [Password] and [OTPAuth] of a row are
    never [None] nor another empty value than the empty string. *)
Theorem row_columns_defaulted (item : json) (csv_row : row) :
  convert_item_to_csv_row item = Ok csv_row ->
  defaulted (URL csv_row) /\ defaulted (Username csv_row)
  /\ defaulted (Password csv_row) /\ defaulted (OTPAuth csv_row).
Proof.
  unfold convert_item_to_csv_row. intros H.
  apply bind_ok in H as [overview [_ H]].
  apply bind_ok in H as [details [_ H]].
  apply bind_ok in H as [title [_ H]].
  apply bind_ok in H as [url [_ H]].
  apply bind_ok in H as [login_fields [_ H]].
  apply bind_ok in H as [username [_ H]].
  apply bind_ok in H as [password [_ H]].
  apply bind_ok in H as [sections [_ H]].
  apply bind_ok in H as [otp_auth [_ H]].
  apply bind_ok in H as [notes [_ [= <-]]].
  cbn [URL Username Password OTPAuth].
  repeat split; apply or_empty_defaulted.
Qed.

(** *** Archived items and the flag *)

Lemma converted_is_obj (items : list json) (csv_rows : list row) :
  converted items csv_rows -> Forall (fun item => is_obj item = true) items.
Proof.
  induction 1 as [| item r items rows Hr _ IH]; constructor; [| exact IH].
  now destruct item.
Qed.

Lemma filter_included_all (items : list json) :
  filter (included true) items = items.
Proof.
  induction items as [| item items IH]; [reflexivity |].
  cbn. now rewrite IH.
Qed.

(** With archived items included every item of the traversal has its
    row: the rows are the conversions of all the items, in order, and
    there are as many rows as items. *)
Theorem convert_1pux_to_csv_all (data : json) (csv_rows : list row) :
  convert_1pux_to_csv data true = Ok csv_rows <->
  exists items,
    items_of data = Ok items
    /\ converted items csv_rows
    /\ length csv_rows = length items.
Proof.
  unfold convert_1pux_to_csv, items_of.
  destruct (py_get data "accounts" (JArr [])) as [accounts |]; cbn [bind].
  2: { split; [discriminate | now intros [? [? _]]]. }
  destruct (py_iter accounts) as [accs |]; cbn [bind].
  2: { split; [discriminate | now intros [? [? _]]]. }
  rewrite add_accounts_rows. unfold rows_of. split.
  - intros [items [rows [Hitems [-> [Hobjs Hrows]]]]].
    rewrite filter_included_all in Hrows. exists items. cbn [app].
    repeat split; [assumption | assumption |].
    symmetry. exact (Forall2_length Hrows).
  - intros [items [Hitems [Hrows _]]]. exists items, csv_rows.
    rewrite filter_included_all.
    repeat split; [assumption | | assumption].
    exact (converted_is_obj _ _ Hrows).
Qed.

Lemma kept_rows_converted (items : list json) (csv_rows : list row) :
  converted items csv_rows ->
  converted (filter (included false) items) (kept_rows items csv_rows).
Proof.
  unfold kept_rows.
  induction 1 as [| item r items rows Hr _ IH]; [constructor |].
  cbn [combine filter fst].
  destruct (included false item); cbn [map snd]; [| exact IH].
  now constructor.
Qed.

(** A document that is converted with archived items is converted
    without them too, and to the same rows less those of the archived
    items. *)
Theorem convert_1pux_to_csv_kept (data : json) (items : list json)
  (csv_rows : list row) :
  items_of data = Ok items ->
  convert_1pux_to_csv data true = Ok csv_rows ->
  convert_1pux_to_csv data false = Ok (kept_rows items csv_rows).
Proof.
  unfold convert_1pux_to_csv, items_of.
  destruct (py_get data "accounts" (JArr [])) as [accounts |]; cbn [bind];
    [| discriminate].
  destruct (py_iter accounts) as [accs |]; cbn [bind]; [| discriminate].
  intros Hitems [items' [rows [Hitems' [-> [Hobjs Hrows]]]]]%add_accounts_rows.
  assert (items' = items) by congruence. subst items'.
  rewrite filter_included_all in Hrows. cbn [app].
  apply add_accounts_rows. exists items, (kept_rows items rows).
  repeat split; [assumption | assumption |].
  now apply kept_rows_converted.
Qed.

(** *** The order of the blocks *)

Ltac split_result :=
  match goal with
  | |- context [if ?c then _ else _] => destruct c
  | |- context [match ?l with [] => _ | _ :: _ => _ end] => destruct l
  | |- context [bind ?r _] =>
      lazymatch r with
      | Ok _ => fail
      | Raise _ => fail
      | bind _ _ => fail
      | _ => destruct r
      end
  end.

(** [build_notes] threads [notes_parts] through the six blocks: it is
    their sequence, the parts of each appended in turn. *)
Lemma build_notes_blocks (details overview : json) :
  build_notes details overview
  = (let* notes := notes_block details in
     let* tags := tags_block overview in
     let* login := login_block details in
     let* sections := sections_block details in
     let* urls := urls_block overview in
     let* history := history_block details in
     Ok (String.concat delimiter
           (notes ++ tags ++ login ++ sections ++ urls ++ history)%list)).
Proof.
  unfold build_notes, notes_block, tags_block, login_block, sections_block,
    urls_block, history_block.
  cbv zeta.
  repeat (cbn [bind]; split_result); cbn [bind]; try reflexivity;
    unfold append; cbn [app]; rewrite ?app_nil_r; reflexivity.
Qed.

(** *** The lines of the section fields *)

Lemma fields_of_section_lines (section_title : json) (fields : list json) :
  forallb section_field_ok fields = true ->
  forall section_fields,
    fields_of_section section_title fields section_fields
    = Ok (section_fields ++ flat_map (section_line section_title) fields)%list.
Proof.
  induction fields as [| field rest IH]; cbn [forallb].
  - intros _ acc. cbn. now rewrite app_nil_r.
  - intros [Hfield Hrest]%andb_prop acc. specialize (IH Hrest).
    destruct (obj_of_inv _ _ Hfield) as [d [-> [Hid Hvalue]%andb_prop]].
    cbn [fields_of_section flat_map section_line is_totp_field py_get bind].
    destruct (is_string_inv _ (opt_key_get_or _ _ _ (JStr EmptyString)
                                 Hid eq_refl)) as [id ->].
    cbn [py_startswith bind].
    destruct (String.prefix "TOTP_" id); [apply IH |].
    destruct (format_field_value_returns _
                (opt_key_get_or _ _ _ (JStr EmptyString) Hvalue eq_refl))
      as [formatted ->].
    cbn [bind]. unfold section_entry.
    destruct (truthy formatted); [| apply IH].
    destruct (truthy section_title && truthy _);
      [| destruct (truthy _)];
      rewrite IH; unfold append; now rewrite <- app_assoc.
Qed.

(** On sections of the data model the entries of the block of section
    fields are, in the order of the sections and of their fields, one
    entry for each field that is no OTP field and whose value formats to
    a value that is not empty. *)
Theorem fields_of_sections_lines (sections : list json) :
  forallb section_ok sections = true ->
  forall section_fields,
    fields_of_sections sections section_fields
    = Ok (section_fields
            ++ flat_map (fun section =>
                           flat_map (section_line (title_of section))
                             (fields_in section))
                 sections)%list.
Proof.
  induction sections as [| section rest IH]; cbn [forallb].
  - intros _ acc. cbn. now rewrite app_nil_r.
  - intros [Hsection Hrest]%andb_prop acc. specialize (IH Hrest).
    destruct (obj_of_inv _ _ Hsection) as [d [-> Hfields]].
    destruct (list_of_inv _ _ (opt_key_get_or _ _ _ (JArr []) Hfields eq_refl))
      as [fs [Efs Hfs]].
    cbn [fields_of_sections flat_map title_of fields_in py_get bind].
    rewrite Efs. cbn [py_iter bind].
    rewrite (fields_of_section_lines _ _ Hfs). cbn [bind].
    rewrite IH. now rewrite <- app_assoc.
Qed.

(** *** Items without content *)

(** An item with neither [overview] nor [details] is converted to the
    row of six empty strings, whatever else it holds. *)
Theorem convert_item_to_csv_row_empty (i : list (string * json)) :
  lookup "overview" i = None ->
  lookup "details" i = None ->
  convert_item_to_csv_row (JObj i) = Ok empty_row.
Proof.
  intros Hoverview Hdetails. unfold convert_item_to_csv_row.
  cbn [py_get bind].
  replace (get_or i "overview" (JObj [])) with (JObj [])
    by (unfold get_or; now rewrite Hoverview).
  replace (get_or i "details" (JObj [])) with (JObj [])
    by (unfold get_or; now rewrite Hdetails).
  reflexivity.
Qed.

(** *** The notes in closed form *)

Lemma other_login_fields_lines (fields : list json) :
  forallb is_obj fields = true ->
  forall other_fields,
    other_login_fields fields other_fields
    = Ok (other_fields ++ flat_map login_line fields)%list.
Proof.
  induction fields as [| field rest IH]; cbn [forallb].
  - intros _ acc. cbn. now rewrite app_nil_r.
  - intros [Hobj Hrest]%andb_prop acc. specialize (IH Hrest).
    destruct (is_obj_inv _ Hobj) as [d ->].
    cbn [other_login_fields flat_map login_line py_get bind].
    unfold is_credential_field, designated.
    rewrite (is_str_get_or d "designation" "username" JNull (JStr EmptyString))
      by reflexivity.
    rewrite (is_str_get_or d "designation" "password" JNull (JStr EmptyString))
      by reflexivity.
    destruct (is_str _ "username" || is_str _ "password"); cbn [negb];
      [apply IH |].
    unfold labelled.
    destruct (truthy (get_or d "value" _)); [| apply IH].
    destruct (truthy (get_or d "name" _));
      rewrite IH; unfold append; now rewrite <- app_assoc.
Qed.

Lemma other_url_lines_lines (urls : list json) :
  forallb is_obj urls = true ->
  forall other_urls,
    other_url_lines urls other_urls
    = Ok (other_urls ++ flat_map url_line urls)%list.
Proof.
  induction urls as [| url_obj rest IH]; cbn [forallb].
  - intros _ acc. cbn. now rewrite app_nil_r.
  - intros [Hobj Hrest]%andb_prop acc. specialize (IH Hrest).
    destruct (is_obj_inv _ Hobj) as [d ->].
    cbn [other_url_lines flat_map url_line py_get bind]. unfold labelled.
    destruct (truthy (get_or d "url" _)); [| apply IH].
    destruct (truthy (get_or d "label" _));
      rewrite IH; unfold append; now rewrite <- app_assoc.
Qed.

Lemma fields_of_sections_entries (sections : list json) :
  forallb section_ok sections = true ->
  forall section_fields,
    fields_of_sections sections section_fields
    = Ok (section_fields
            ++ flat_map (fun section =>
                           flat_map (section_line (title_of section))
                             (fields_in section))
                 sections)%list.
Proof.
  induction sections as [| section rest IH]; cbn [forallb].
  - intros _ acc. cbn. now rewrite app_nil_r.
  - intros [Hsection Hrest]%andb_prop acc.
    destruct (obj_of_inv _ _ Hsection) as [d [-> Hfields]].
    destruct (list_of_inv _ _ (opt_key_get_or _ _ _ (JArr []) Hfields eq_refl))
      as [fs [Efs Hfs]].
    rewrite fields_of_sections_cons. cbn [py_get bind].
    rewrite Efs. cbn [py_iter bind flat_map title_of fields_in].
    rewrite Efs, (fields_of_section_lines _ _ Hfs). cbn [bind].
    rewrite (IH Hrest). now rewrite <- app_assoc.
Qed.

Lemma all_str_strings (l : list json) :
  forallb is_string l = true -> all_str l = Ok (map py_str l).
Proof.
  induction l as [| v l IH]; cbn [forallb]; [reflexivity |].
  intros [Hv Hl]%andb_prop. destruct (is_string_inv _ Hv) as [s ->].
  cbn [all_str map py_str]. now rewrite (IH Hl).
Qed.

Lemma get_or_list (d : list (string * json)) (k : string)
  (p : json -> bool) :
  opt_key k (list_of p) d = true ->
  get_or d k (JArr []) = JArr (list_at d k)
  /\ forallb p (list_at d k) = true.
Proof.
  intros Hk. unfold list_at.
  destruct (list_of_inv _ _ (opt_key_get_or _ _ _ (JArr []) Hk eq_refl))
    as [l [-> Hl]].
  now split.
Qed.

Lemma get_or_notes (d : list (string * json)) :
  opt_key "notesPlain" is_string d = true ->
  get_or d "notesPlain" (JStr EmptyString) = JStr (text_of d "notesPlain").
Proof.
  intros Hk. unfold get_or, text_of.
  now destruct (opt_string_cases _ _ Hk) as [-> | [s ->]].
Qed.

Lemma truthy_str (s : string) : truthy (JStr s) = nonempty s.
Proof. now destruct s. Qed.

Lemma notes_block_typed (d : list (string * json)) :
  opt_key "notesPlain" is_string d = true ->
  notes_block (JObj d)
  = Ok (if nonempty (text_of d "notesPlain") then [notes_text d] else []).
Proof.
  intros Hk. unfold notes_block, notes_text. cbn [py_get bind].
  rewrite (get_or_notes _ Hk), truthy_str.
  now destruct (nonempty (text_of d "notesPlain")).
Qed.

Lemma tags_block_typed (o : list (string * json)) :
  opt_key "tags" (list_of is_string) o = true ->
  tags_block (JObj o) = Ok (filter nonempty [tags_text o]).
Proof.
  intros Hk. destruct (get_or_list _ _ _ Hk) as [Etags Hstrs].
  unfold tags_block, tags_text. cbn [py_get bind]. rewrite Etags.
  destruct (list_at o "tags") as [| tag tags]; [reflexivity |].
  unfold py_join, join_list. cbn [truthy py_iter bind].
  now rewrite (all_str_strings _ Hstrs).
Qed.

Lemma login_block_typed (d : list (string * json)) :
  opt_key "loginFields" (list_of is_obj) d = true ->
  login_block (JObj d) = Ok (filter nonempty [login_text d]).
Proof.
  intros Hk. destruct (get_or_list _ _ _ Hk) as [Efields Hobjs].
  unfold login_block, login_text. cbn [py_get bind]. rewrite Efields.
  cbn [py_iter bind]. rewrite (other_login_fields_lines _ Hobjs).
  cbn [bind app].
  now destruct (flat_map login_line (list_at d "loginFields")).
Qed.

Lemma sections_block_typed (d : list (string * json)) :
  opt_key "sections" (list_of section_ok) d = true ->
  sections_block (JObj d) = Ok (filter nonempty [sections_text d]).
Proof.
  intros Hk. destruct (get_or_list _ _ _ Hk) as [Esections Hok].
  unfold sections_block, sections_text. cbn [py_get bind]. rewrite Esections.
  cbn [py_iter bind]. rewrite (fields_of_sections_entries _ Hok).
  cbn [bind app].
  now destruct (flat_map _ (list_at d "sections")).
Qed.

Lemma urls_block_typed (o : list (string * json)) :
  opt_key "urls" (list_of is_obj) o = true ->
  urls_block (JObj o) = Ok (filter nonempty [urls_text o]).
Proof.
  intros Hk. destruct (get_or_list _ _ _ Hk) as [Eurls Hobjs].
  unfold urls_block, urls_text. cbn [py_get bind]. rewrite Eurls.
  cbn [py_len bind].
  destruct (list_at o "urls") as [| first [| second rest]];
    [reflexivity | reflexivity |].
  cbn [length Nat.ltb Nat.leb py_rest tl py_iter bind].
  rewrite (other_url_lines_lines _ (forallb_tl _ _ Hobjs)).
  cbn [bind app tl].
  now destruct (flat_map url_line (second :: rest)).
Qed.

Lemma history_block_typed (d : list (string * json)) :
  opt_key "passwordHistory" is_arr d = true ->
  history_block (JObj d) = Ok (filter nonempty [history_text d]).
Proof.
  intros Hk. unfold history_block, history_text, list_at.
  cbn [py_get bind].
  pose proof (opt_key_get_or _ _ _ (JArr []) Hk eq_refl) as Harr.
  destruct (get_or d "passwordHistory" (JArr [])) as [| | | | | h |];
    try discriminate.
  now destruct h.
Qed.

Lemma build_notes_parts (d o : list (string * json)) :
  details_ok (JObj d) = true ->
  overview_ok (JObj o) = true ->
  build_notes (JObj d) (JObj o)
  = Ok (String.concat delimiter
          ((if nonempty (text_of d "notesPlain") then [notes_text d] else [])
             ++ filter nonempty
                  [tags_text o; login_text d; sections_text d; urls_text o;
                   history_text d])%list).
Proof.
  cbn [details_ok overview_ok obj_of].
  intros [[[Hnotes Hlogin]%andb_prop Hsections]%andb_prop Hhistory]%andb_prop
         [Hurls Htags]%andb_prop.
  rewrite build_notes_blocks.
  rewrite (notes_block_typed _ Hnotes), (tags_block_typed _ Htags),
    (login_block_typed _ Hlogin), (sections_block_typed _ Hsections),
    (urls_block_typed _ Hurls), (history_block_typed _ Hhistory).
  cbn [bind filter].
  destruct (nonempty (tags_text o)), (nonempty (login_text d)),
    (nonempty (sections_text d)), (nonempty (urls_text o)),
    (nonempty (history_text d)); reflexivity.
Qed.

(** On details and an overview of the data model [build_notes] raises
    nothing and returns these parts in this order, joined by the
    delimiter: the stripped free-text notes when [notesPlain] is not
    empty, then those that are not empty of the tag line, the block of
    the other login fields, the block of the section fields, the block of
    the URLs after the first, the line of the password history, each in
    its closed form. *)
Theorem build_notes_closed_form (d o : list (string * json)) :
  details_ok (JObj d) = true ->
  overview_ok (JObj o) = true ->
  build_notes (JObj d) (JObj o)
  = Ok (String.concat delimiter
          ((if nonempty (text_of d "notesPlain") then [notes_text d] else [])
             ++ filter nonempty
                  [tags_text o; login_text d; sections_text d; urls_text o;
                   history_text d])%list).
Proof. exact (build_notes_parts d o). Qed.

(** On details and an overview of the data model whose free-text notes
    are not whitespace only, the notes are the six blocks that are not
    empty, joined by the delimiter: a block that is empty adds neither
    text nor delimiter. *)
Theorem build_notes_joins_blocks (d o : list (string * json)) :
  details_ok (JObj d) = true ->
  overview_ok (JObj o) = true ->
  blank_notes_plain (JObj d) = false ->
  build_notes (JObj d) (JObj o) = Ok (join_blocks (blocks_of d o)).
Proof.
  intros Hd Ho Hblank. rewrite (build_notes_parts d o Hd Ho).
  unfold join_blocks, blocks_of. f_equal. f_equal.
  cbn [details_ok obj_of] in Hd.
  apply andb_prop in Hd as [[[Hnotes _]%andb_prop _]%andb_prop _].
  cbn [blank_notes_plain] in Hblank.
  rewrite (get_or_notes _ Hnotes) in Hblank.
  unfold notes_text in *. cbn [filter].
  destruct (text_of d "notesPlain") as [| c s]; [reflexivity |].
  cbn [nonempty andb] in *.
  now destruct (nonempty (strip (String c s))).
Qed.

End Program.

(** ** The properties at sample documents *)

(** C1: notes that hold only whitespace pass the test on [notes_plain]
    and are appended after [strip], as an empty block: the notes start
    with the delimiter, where the blocks that are not empty, joined, are
    the tag line alone. *)
Theorem build_notes_blank_notes :
  build_notes repr_plain blank_notes one_tag = Ok (delimiter ++ "標籤: a")
  /\ join_blocks [strip " "; "標籤: a"] = "標籤: a".
Proof. split; reflexivity. Qed.

(** C2: an OTP field whose value is the empty string ends the scan: the
    function returns the empty string, where the first candidate that is
    not empty is the seed of the next field. *)
Theorem extract_otp_auth_empty_string :
  extract_otp_auth (JArr two_totp_fields) = Ok (JStr EmptyString)
  /\ first_nonempty_otp two_totp_fields = JStr "JBSWY3DPEHPK3PXP".
Proof. split; reflexivity. Qed.

(** Not idempotent, not total: the empty string a concealed value holds
    is returned as it is, and the formatter maps it to absent; and an
    address whose street is a number raises [TypeError]. *)
Lemma format_field_value_not_idempotent :
  format_field_value repr_plain (JObj [("concealed", JStr EmptyString)])
  = Ok (JStr EmptyString)
  /\ format_field_value repr_plain (JStr EmptyString) = Ok JNull
  /\ format_field_value repr_plain
       (JObj [("address", JObj [("street", JInt 5)])])
     = Raise TypeError.
Proof. repeat split; reflexivity. Qed.

Lemma format_field_value_total_idempotent_witness :
  field_value_typed (JObj [("address", JObj main_street)]) = true
  /\ exists r,
       format_field_value repr_plain (JObj [("address", JObj main_street)])
       = Ok r
       /\ is_text r = true
       /\ format_field_value repr_plain r
          = Ok (if truthy r then r else JNull).
Proof.
  split; [reflexivity |].
  apply (format_field_value_total_idempotent repr_plain). reflexivity.
Defined.

(** An item whose login fields are [null] raises [TypeError],
    and with it the conversion of the whole document. *)
Lemma convert_item_to_csv_row_raises :
  convert_item_to_csv_row repr_plain null_login_fields = Raise TypeError
  /\ convert_1pux_to_csv repr_plain
       (one_vault [example_login; null_login_fields]) false
     = Raise TypeError.
Proof. split; reflexivity. Qed.

Lemma convert_item_to_csv_row_returns_witness :
  item_ok example_login = true
  /\ exists csv_row,
       convert_item_to_csv_row repr_plain example_login = Ok csv_row.
Proof.
  split; [reflexivity |].
  apply (convert_item_to_csv_row_returns repr_plain). reflexivity.
Defined.

(** An archived item whose login fields are [null] adds no row when
    archived items are asked for: its conversion raises [TypeError], and
    with it the conversion of the document. *)
Lemma archived_item_raises :
  is_str (state_of archived_null_login_fields) "archived" = true
  /\ add_item repr_plain true archived_null_login_fields [] = Raise TypeError
  /\ convert_1pux_to_csv repr_plain
       (one_vault [example_login; archived_null_login_fields]) true
     = Raise TypeError.
Proof. repeat split; reflexivity. Qed.

Lemma archived_items_filtered_witness :
  (is_str (state_of archived_login) "archived" = true
   /\ item_ok archived_login = true
   /\ add_item repr_plain false archived_login [example_row]
      = Ok [example_row]
   /\ convert_item_to_csv_row repr_plain archived_login = Ok archived_row
   /\ add_item repr_plain true archived_login [example_row]
      = Ok [example_row; archived_row])
  /\ (is_str (state_of example_login) "archived" = false
      /\ add_item repr_plain true example_login []
         = add_item repr_plain false example_login []).
Proof.
  pose proof (archived_items_filtered repr_plain archived_login [example_row])
    as [Harchived _].
  pose proof (archived_items_filtered repr_plain example_login [])
    as [_ Hactive].
  destruct (Harchived eq_refl) as [Hout [Hin _]].
  split.
  - split; [reflexivity |]. split; [reflexivity |].
    split; [exact Hout |]. split; [reflexivity |].
    exact (Hin archived_row eq_refl).
  - split; [reflexivity | exact (Hactive eq_refl)].
Defined.

Lemma rows_in_source_order_witness :
  convert_1pux_to_csv repr_plain
    (one_vault [archived_login; example_login]) false
  = Ok [example_row].
Proof.
  apply (rows_in_source_order repr_plain).
  exists [archived_login; example_login].
  split; [reflexivity |]. split; [repeat constructor |].
  split; [| cbn; lia].
  cbn. repeat constructor.
Defined.

Lemma format_field_value_address_witness :
  recognized [("address", JObj main_street)] = false
  /\ lookup "address" [("address", JObj main_street)] = Some (JObj main_street)
  /\ address_ok main_street = true
  /\ format_field_value repr_plain (JObj [("address", JObj main_street)])
     = Ok (JStr "1 Main St, Springfield, IL, 62704, USA").
Proof.
  split; [reflexivity |]. split; [reflexivity |]. split; [reflexivity |].
  exact (format_field_value_address repr_plain
           [("address", JObj main_street)] main_street
           eq_refl eq_refl eq_refl).
Defined.

(** With [value] present and empty and [text] holding [x], the
    first present key is [value], and the result is [x]. *)
Lemma format_field_value_skips_empty :
  first_present incidental_keys empty_then_text = Some (JStr EmptyString)
  /\ first_present_wins repr_plain empty_then_text = JStr EmptyString
  /\ format_field_value repr_plain (JObj empty_then_text) = Ok (JStr "x").
Proof. repeat split; reflexivity. Qed.

Lemma format_field_value_incidental_witness :
  unrecognized empty_then_text = true
  /\ format_field_value repr_plain (JObj empty_then_text) = Ok (JStr "x")
  /\ unrecognized [("other", JInt 1)] = true
  /\ format_field_value repr_plain (JObj [("other", JInt 1)]) = Ok JNull.
Proof.
  split; [reflexivity |]. split.
  - apply (proj1 (format_field_value_incidental repr_plain empty_then_text
                    eq_refl)
             ["value"] "text" ["name"; "label"] (JStr "x"));
      [reflexivity | repeat constructor | reflexivity | reflexivity].
  - split; [reflexivity |].
    apply (proj2 (format_field_value_incidental repr_plain
                    [("other", JInt 1)] eq_refl)).
    repeat constructor.
Defined.

Lemma missing_state_is_active_witness :
  lookup "state" [("overview", JObj [])] = None
  /\ (forall include_archived,
        add_item repr_plain include_archived (JObj [("overview", JObj [])]) []
        = (let* csv_row := convert_item_to_csv_row repr_plain
                             (JObj [("overview", JObj [])]) in
           Ok (append [] csv_row)))
  /\ (add_item repr_plain false (JObj [("state", JStr "archived")]) [] = Ok []
      /\ state_of (JObj [("state", JStr "archived")]) = JStr "archived").
Proof.
  split; [reflexivity |]. split.
  - intros include_archived.
    exact (proj1 (proj1 (missing_state_is_active repr_plain
                           [("overview", JObj [])] include_archived [])
                    eq_refl)).
  - split; [reflexivity |].
    exact (proj2 (proj2 (missing_state_is_active repr_plain
                           [("state", JStr "archived")] false [])
                    eq_refl)).
Defined.

(** ** Further properties at sample documents *)

Lemma export_data_path_first_witness :
  export_data_path archive_names = Some "files/export.data".
Proof.
  apply (proj1 (export_data_path_first archive_names)).
  exists ["files/icon.png"], ["export.data"].
  split; [reflexivity |]. split; [reflexivity |]. now repeat constructor.
Defined.

Lemma extract_credentials_first_witness :
  designated "username" (login_field "username" "alice") = true
  /\ forallb (not_designated "username") [login_field "password" "p@ss"]
     = true
  /\ extract_username (JArr fields_with_number) = Ok (JStr "alice").
Proof.
  split; [reflexivity |]. split; [reflexivity |].
  exact (proj1 (extract_credentials_first
                  [login_field "password" "p@ss"] [JInt 5]
                  [("designation", JStr "username"); ("value", JStr "alice")])
           eq_refl eq_refl).
Defined.

Lemma extract_credentials_none_witness :
  forallb (not_designated "username") [login_field "password" "p@ss"] = true
  /\ extract_username (JArr [login_field "password" "p@ss"]) = Ok JNull.
Proof.
  split; [reflexivity |].
  exact (proj1 (extract_credentials_none [login_field "password" "p@ss"])
           eq_refl).
Defined.

Lemma extract_url_priority_witness :
  (truthy (get_or (two_urls (JInt 5)) "url" JNull) = true
   /\ extract_url (JObj (two_urls (JInt 5)))
      = Ok (JStr "https://example.com"))
  /\ (truthy (get_or [("urls", JArr [JObj []])] "url" JNull) = false
      /\ extract_url (JObj [("urls", JArr [JObj []])])
         = Ok (JStr EmptyString))
  /\ (truthy (get_or [("title", JStr "t")] "url" JNull) = false
      /\ truthy (get_or [("title", JStr "t")] "urls" (JArr [])) = false
      /\ extract_url (JObj [("title", JStr "t")]) = Ok JNull).
Proof.
  split; [| split].
  - split; [reflexivity |].
    exact (proj1 (extract_url_priority (two_urls (JInt 5))) eq_refl).
  - split; [reflexivity |].
    exact (proj1 (proj2 (extract_url_priority [("urls", JArr [JObj []])]))
             eq_refl [] [] eq_refl).
  - split; [reflexivity |]. split; [reflexivity |].
    exact (proj2 (proj2 (extract_url_priority [("title", JStr "t")]))
             eq_refl eq_refl).
Defined.

Lemma build_notes_history_length_witness :
  lookup "passwordHistory" (history_of [JStr "old1"; JStr "old2"])
  = Some (JArr [JStr "old1"; JStr "old2"])
  /\ length [JNull; JNull] = length [JStr "old1"; JStr "old2"]
  /\ build_notes repr_plain
       (JObj (set_key "passwordHistory" (JArr [JNull; JNull])
                (history_of [JStr "old1"; JStr "old2"])))
       (JObj [])
     = build_notes repr_plain
         (JObj (history_of [JStr "old1"; JStr "old2"])) (JObj []).
Proof.
  split; [reflexivity |]. split; [reflexivity |].
  exact (build_notes_history_length repr_plain
           (history_of [JStr "old1"; JStr "old2"]) (JObj [])
           [JStr "old1"; JStr "old2"] [JNull; JNull] eq_refl eq_refl).
Defined.

Lemma build_notes_skips_first_url_witness :
  lookup "urls" (two_urls (JObj [("url", JStr "https://a.com")]))
  = Some (JArr [JObj [("url", JStr "https://a.com")];
                JObj [("url", JStr "https://b.com");
                      ("label", JStr "Backup")]])
  /\ build_notes repr_plain (JObj [])
       (JObj (set_key "urls"
                (JArr [JInt 5;
                       JObj [("url", JStr "https://b.com");
                             ("label", JStr "Backup")]])
                (two_urls (JObj [("url", JStr "https://a.com")]))))
     = build_notes repr_plain (JObj [])
         (JObj (two_urls (JObj [("url", JStr "https://a.com")]))).
Proof.
  split; [reflexivity |].
  exact (build_notes_skips_first_url repr_plain (JObj [])
           (two_urls (JObj [("url", JStr "https://a.com")]))
           (JObj [("url", JStr "https://a.com")]) (JInt 5)
           [JObj [("url", JStr "https://b.com"); ("label", JStr "Backup")]]
           eq_refl).
Defined.

Lemma first_url_entry_unused_witness :
  lookup "overview"
    [("overview", JObj (two_urls (JObj [("url", JStr "https://a.com")])))]
  = Some (JObj (two_urls (JObj [("url", JStr "https://a.com")])))
  /\ truthy (get_or (two_urls (JObj [("url", JStr "https://a.com")]))
               "url" JNull) = true
  /\ convert_item_to_csv_row repr_plain
       (JObj (set_key "overview"
                (JObj (set_key "urls"
                         (JArr [JObj [("url", JStr "https://c.com")];
                                JObj [("url", JStr "https://b.com");
                                      ("label", JStr "Backup")]])
                         (two_urls (JObj [("url", JStr "https://a.com")]))))
                [("overview",
                  JObj (two_urls (JObj [("url", JStr "https://a.com")])))]))
     = convert_item_to_csv_row repr_plain
         (JObj [("overview",
                 JObj (two_urls (JObj [("url", JStr "https://a.com")])))]).
Proof.
  split; [reflexivity |]. split; [reflexivity |].
  exact (first_url_entry_unused repr_plain
           [("overview",
             JObj (two_urls (JObj [("url", JStr "https://a.com")])))]
           (two_urls (JObj [("url", JStr "https://a.com")]))
           (JObj [("url", JStr "https://a.com")])
           (JObj [("url", JStr "https://c.com")])
           [JObj [("url", JStr "https://b.com"); ("label", JStr "Backup")]]
           eq_refl eq_refl eq_refl).
Defined.

Lemma row_columns_defaulted_witness :
  convert_item_to_csv_row repr_plain example_login = Ok example_row
  /\ defaulted (URL example_row) /\ defaulted (Username example_row)
  /\ defaulted (Password example_row) /\ defaulted (OTPAuth example_row).
Proof.
  split; [reflexivity |].
  exact (row_columns_defaulted repr_plain example_login example_row eq_refl).
Defined.

Lemma convert_1pux_to_csv_all_witness :
  convert_1pux_to_csv repr_plain
    (one_vault [archived_login; example_login]) true
  = Ok [archived_row; example_row].
Proof.
  apply (convert_1pux_to_csv_all repr_plain).
  exists [archived_login; example_login].
  split; [reflexivity |]. split; [| reflexivity].
  repeat constructor.
Defined.

Lemma convert_1pux_to_csv_kept_witness :
  items_of (one_vault [archived_login; example_login])
  = Ok [archived_login; example_login]
  /\ convert_1pux_to_csv repr_plain
       (one_vault [archived_login; example_login]) true
     = Ok [archived_row; example_row]
  /\ convert_1pux_to_csv repr_plain
       (one_vault [archived_login; example_login]) false
     = Ok [example_row].
Proof.
  split; [reflexivity |]. split; [reflexivity |].
  exact (convert_1pux_to_csv_kept repr_plain
           (one_vault [archived_login; example_login])
           [archived_login; example_login] [archived_row; example_row]
           eq_refl eq_refl).
Defined.

Lemma extract_otp_auth_first_nonempty_witness :
  forallb section_ok
    [JObj [("fields", JArr [JObj [("id", JStr "TOTP_0");
                                  ("value", JObj [("totp", JStr EmptyString)])]])];
     JObj [("fields", JArr [totp_field "TOTP_1" "JBSWY3DPEHPK3PXP"])]]
  = true
  /\ extract_otp_auth
       (JArr [JObj [("fields",
                     JArr [JObj [("id", JStr "TOTP_0");
                                 ("value", JObj [("totp", JStr EmptyString)])]])];
              JObj [("fields", JArr [totp_field "TOTP_1" "JBSWY3DPEHPK3PXP"])]])
     = Ok (JStr "JBSWY3DPEHPK3PXP").
Proof.
  split; [reflexivity |].
  exact (extract_otp_auth_first_nonempty
           [JObj [("fields",
                   JArr [JObj [("id", JStr "TOTP_0");
                               ("value", JObj [("totp", JStr EmptyString)])]])];
            JObj [("fields", JArr [totp_field "TOTP_1" "JBSWY3DPEHPK3PXP"])]]
           eq_refl eq_refl).
Defined.

Lemma columns_without_totp_witness :
  exists r r',
    convert_item_to_csv_row repr_plain item_with_totp = Ok r
    /\ convert_item_to_csv_row repr_plain (drop_totp_item item_with_totp)
       = Ok r'
    /\ OTPAuth r = JStr "JBSWY3DPEHPK3PXP"
    /\ OTPAuth r' = JStr EmptyString
    /\ Title r' = Title r /\ URL r' = URL r /\ Username r' = Username r
    /\ Password r' = Password r /\ Notes r' = Notes r.
Proof.
  eexists. eexists.
  split; [reflexivity |]. split; [reflexivity |].
  split; [reflexivity |]. split; [reflexivity |].
  exact (columns_without_totp repr_plain item_with_totp _ _ eq_refl eq_refl).
Defined.

Lemma convert_1pux_to_csv_returns_witness :
  items_of (one_vault [archived_login; example_login])
  = Ok [archived_login; example_login]
  /\ Forall (fun item => item_ok item = true) [archived_login; example_login]
  /\ exists csv_rows,
       convert_1pux_to_csv repr_plain
         (one_vault [archived_login; example_login]) false = Ok csv_rows
       /\ converted repr_plain
            (filter (included false) [archived_login; example_login])
            csv_rows.
Proof.
  split; [reflexivity |].
  assert (Hok : Forall (fun item => item_ok item = true)
                  [archived_login; example_login]) by now repeat constructor.
  split; [exact Hok |].
  exact (convert_1pux_to_csv_returns repr_plain
           (one_vault [archived_login; example_login]) false
           [archived_login; example_login] eq_refl Hok).
Defined.

Lemma fields_of_sections_lines_witness :
  forallb section_ok sample_sections = true
  /\ fields_of_sections repr_plain sample_sections []
     = Ok [JStr "Security - PIN: 1234"; JStr "Member: 42"].
Proof.
  split; [reflexivity |].
  exact (fields_of_sections_lines repr_plain sample_sections eq_refl []).
Defined.

Lemma convert_item_to_csv_row_empty_witness :
  lookup "overview" [("state", JStr "active")] = None
  /\ lookup "details" [("state", JStr "active")] = None
  /\ convert_item_to_csv_row repr_plain (JObj [("state", JStr "active")])
     = Ok empty_row.
Proof.
  split; [reflexivity |]. split; [reflexivity |].
  exact (convert_item_to_csv_row_empty repr_plain
           [("state", JStr "active")] eq_refl eq_refl).
Defined.

Lemma build_notes_closed_form_witness :
  details_ok (JObj full_details) = true
  /\ overview_ok (JObj full_overview) = true
  /\ build_notes repr_plain (JObj full_details) (JObj full_overview)
     = Ok full_notes.
Proof.
  split; [reflexivity |]. split; [reflexivity |].
  exact (build_notes_closed_form repr_plain full_details full_overview
           eq_refl eq_refl).
Defined.

Lemma build_notes_joins_blocks_witness :
  details_ok (JObj full_details) = true
  /\ overview_ok (JObj [("tags", JArr [])]) = true
  /\ blank_notes_plain (JObj full_details) = false
  /\ build_notes repr_plain (JObj full_details) (JObj [("tags", JArr [])])
     = Ok ("hi" ++ delimiter
             ++ "其他欄位:" ++ nl ++ "  - PIN: 1234" ++ delimiter
             ++ "額外資訊:" ++ nl ++ "  - Security - PIN: 1234" ++ nl
             ++ "  - Member: 42" ++ delimiter
             ++ "密碼歷史記錄: 2 筆").
Proof.
  split; [reflexivity |]. split; [reflexivity |]. split; [reflexivity |].
  exact (build_notes_joins_blocks repr_plain full_details
           [("tags", JArr [])] eq_refl eq_refl eq_refl).
Defined.
